(** * Signal-processing utilities of the stress preprocessor

    A shallow embedding of
    [stress_preprocessor/utils/signal_processing_utils.py]:
    [extract_neuro_features], [get_sampling_rate] and [resample_dataframe].

    The three functions are glue over a tabular-data library and a
    biosignal toolkit.  Tables are modelled concretely (typed columns, an
    index, an ordered list of labelled columns).  The toolkit, and the parts
    of the table library that depend on its internals (the frequency grid of
    a resampler, the join of two different indexes, the printing of a
    cell), are parameters, collected in the record [Externals].

    Conventions.
    - A [float64] cell is a [num]: an exact rational, NaN, or an infinity.
      Rounding and signed zeros are not modelled.
    - A raised exception is the [Err] branch of [result]; the exception
      class is kept, and its argument where the source supplies one.
    - Column labels of a frame are unique, as in a frame read from a file;
      [df[c]] is the first column carrying the label [c]. *)

From Stdlib Require Import ZArith QArith Qcanon List Ascii String Lia.
From stdpp Require Import gmap strings.

Local Open Scope string_scope.
Local Open Scope list_scope.

(** ** Floating-point cells *)

Inductive num :=
| NaN
| PInf
| NInf
| Fin (q : Qc).

Definition Qc_of_nat (n : nat) : Qc := Q2Qc (inject_Z (Z.of_nat n)).

Definition Qc_zero : Qc := Q2Qc 0.
Definition Qc_one : Qc := Q2Qc 1.

Definition fneg (a : num) : num :=
  match a with
  | NaN => NaN
  | PInf => NInf
  | NInf => PInf
  | Fin q => Fin (Qcopp q)
  end.

(** Arithmetic on finite values is exact: the rounding of [float64] is
    not modelled, so a result that turns on cancellation is the ideal one,
    not the one a machine returns. *)
Definition fadd (a b : num) : num :=
  match a, b with
  | NaN, _ | _, NaN => NaN
  | PInf, NInf | NInf, PInf => NaN
  | PInf, _ | _, PInf => PInf
  | NInf, _ | _, NInf => NInf
  | Fin p, Fin q => Fin (Qcplus p q)
  end.

Definition fsub (a b : num) : num := fadd a (fneg b).

(** The infinity with the sign of [c]. *)
Definition signed_inf (c : comparison) (flip : bool) : num :=
  match c, flip with
  | Lt, false | Gt, true => NInf
  | _, _ => PInf
  end.

(** Division as numpy performs it on [float64]: a division by zero is not
    an exception, it yields an infinity (or NaN for [0/0]). *)
Definition fdiv (a b : num) : num :=
  match a, b with
  | NaN, _ | _, NaN => NaN
  | (PInf | NInf), (PInf | NInf) => NaN
  | PInf, Fin q => signed_inf (Qccompare q Qc_zero) false
  | NInf, Fin q => signed_inf (Qccompare q Qc_zero) true
  | Fin _, (PInf | NInf) => Fin Qc_zero
  | Fin p, Fin q =>
      match Qccompare q Qc_zero with
      | Eq =>
          match Qccompare p Qc_zero with
          | Eq => NaN
          | Lt => NInf
          | Gt => PInf
          end
      | _ => Fin (Qcdiv p q)
      end
  end.

Definition is_nan (a : num) : bool :=
  match a with NaN => true | _ => false end.

Definition fsum (xs : list num) : num := fold_left fadd xs (Fin Qc_zero).

(** [Series.mean()] on a float column: missing values are skipped, and the
    mean of nothing is NaN. *)
Definition nanmean (xs : list num) : num :=
  let vs := List.filter (fun x => negb (is_nan x)) xs in
  match vs with
  | [] => NaN
  | _ => fdiv (fsum vs) (Fin (Qc_of_nat (length vs)))
  end.

(** [Series.diff()]: the first entry has no predecessor and is missing;
    entry [i] is [x i - x (i-1)]. *)
Fixpoint diff_from (prev : num) (xs : list num) : list num :=
  match xs with
  | [] => []
  | x :: rest => fsub x prev :: diff_from x rest
  end.

Definition float_diff (xs : list num) : list num :=
  match xs with
  | [] => []
  | x :: rest => NaN :: diff_from x rest
  end.

(** ** Exceptions *)

Inductive scalar :=
| SFloat (x : num)
| SStr (s : string)
| STime (t : Z)
| SDelta (d : Z)
| SNaT.

Inductive exn :=
| ValueError (msg : string)
| KeyError (key : scalar)
| IndexError
| TypeError
| InvalidIndexError
| ExternalError (msg : string).

Inductive result (A : Type) :=
| Ok (a : A)
| Err (e : exn).
Arguments Ok {A} a.
Arguments Err {A} e.

Definition rbind {A B} (r : result A) (k : A -> result B) : result B :=
  match r with
  | Ok a => k a
  | Err e => Err e
  end.

Notation "'let*' x ':=' c 'in' k" := (rbind c (fun x => k))
  (at level 10, x pattern, c at level 100, k at level 200).

Fixpoint rmap {A B} (f : A -> result B) (xs : list A) : result (list B) :=
  match xs with
  | [] => Ok []
  | x :: rest =>
      let* y := f x in
      let* ys := rmap f rest in
      Ok (y :: ys)
  end.

(** ** Columns and frames *)

(** A column has one dtype.  Missing cells are NaN in a float column,
    [None] in an object column and NaT ([None]) in a time column. *)
Inductive column :=
| FloatCol (xs : list num)
| ObjCol (xs : list (option string))
| TimeCol (xs : list (option Z))
| DeltaCol (xs : list (option Z)).

Definition col_length (c : column) : nat :=
  match c with
  | FloatCol xs => length xs
  | ObjCol xs => length xs
  | TimeCol xs => length xs
  | DeltaCol xs => length xs
  end.

Definition obj_scalar (o : option string) : scalar :=
  match o with Some s => SStr s | None => SFloat NaN end.

Definition time_scalar (o : option Z) : scalar :=
  match o with Some t => STime t | None => SNaT end.

Definition delta_scalar (o : option Z) : scalar :=
  match o with Some t => SDelta t | None => SNaT end.

(** The cells of a column as scalars, as [iloc] hands them out. *)
Definition col_cells (c : column) : list scalar :=
  match c with
  | FloatCol xs => map SFloat xs
  | ObjCol xs => map obj_scalar xs
  | TimeCol xs => map time_scalar xs
  | DeltaCol xs => map delta_scalar xs
  end.

Inductive index :=
| RangeIndex (n : nat)
| LabelIndex (name : option string) (labels : column).

Record DataFrame := mkDataFrame {
  df_index : index;
  df_columns : list (string * column)
}.

Record Series := mkSeries {
  s_index : index;
  s_values : column
}.

Definition column_names (df : DataFrame) : list string := map fst (df_columns df).

Fixpoint assoc {V} (k : string) (l : list (string * V)) : option V :=
  match l with
  | [] => None
  | (k', v) :: rest => if String.eqb k k' then Some v else assoc k rest
  end.

(** [c in df.columns] *)
Definition has_column (c : string) (df : DataFrame) : bool :=
  match assoc c (df_columns df) with Some _ => true | None => false end.

(** [df[c]] *)
Definition getitem (df : DataFrame) (c : string) : result Series :=
  match assoc c (df_columns df) with
  | Some col => Ok (mkSeries (df_index df) col)
  | None => Err (KeyError (SStr c))
  end.

(** [s.iloc[0]] *)
Definition iloc0 (s : Series) : result scalar :=
  match col_cells (s_values s) with
  | x :: _ => Ok x
  | [] => Err IndexError
  end.

(** ** Series arithmetic used by the sampling-rate estimator *)

Definition opt_sub (a b : option Z) : option Z :=
  match a, b with
  | Some x, Some y => Some (x - y)%Z
  | _, _ => None
  end.

Fixpoint tdiff_from (prev : option Z) (xs : list (option Z)) : list (option Z) :=
  match xs with
  | [] => []
  | x :: rest => opt_sub x prev :: tdiff_from x rest
  end.

Definition time_diff (xs : list (option Z)) : list (option Z) :=
  match xs with
  | [] => []
  | x :: rest => None :: tdiff_from x rest
  end.

(** Subtraction of object cells: strings cannot be subtracted. *)
Definition obj_sub (a b : option string) : result (option string) :=
  match a, b with
  | None, None => Ok None
  | _, _ => Err TypeError
  end.

Fixpoint odiff_from (prev : option string) (xs : list (option string))
  : result (list (option string)) :=
  match xs with
  | [] => Ok []
  | x :: rest =>
      let* d := obj_sub x prev in
      let* ds := odiff_from x rest in
      Ok (d :: ds)
  end.

Definition obj_diff (xs : list (option string)) : result (list (option string)) :=
  match xs with
  | [] => Ok []
  | x :: rest => let* ds := odiff_from x rest in Ok (None :: ds)
  end.

(** [s.diff()] *)
Definition series_diff (s : Series) : result Series :=
  match s_values s with
  | FloatCol xs => Ok (mkSeries (s_index s) (FloatCol (float_diff xs)))
  | ObjCol xs =>
      let* ds := obj_diff xs in Ok (mkSeries (s_index s) (ObjCol ds))
  | TimeCol xs => Ok (mkSeries (s_index s) (DeltaCol (time_diff xs)))
  | DeltaCol xs => Ok (mkSeries (s_index s) (DeltaCol (time_diff xs)))
  end.

Fixpoint somes {A} (xs : list (option A)) : list A :=
  match xs with
  | [] => []
  | Some x :: rest => x :: somes rest
  | None :: rest => somes rest
  end.

Definition zsum (xs : list Z) : Z := fold_left Z.add xs 0%Z.

(** Mean of the present cells of a time or duration column, [None] (NaT)
    when there is none. *)
Definition zmean (xs : list (option Z)) : option Z :=
  match somes xs with
  | [] => None
  | vs => Some (zsum vs / Z.of_nat (length vs))%Z
  end.

(** [s.mean()] *)
Definition series_mean (s : Series) : result scalar :=
  match s_values s with
  | FloatCol xs => Ok (SFloat (nanmean xs))
  | ObjCol xs =>
      match somes xs with
      | [] => Ok (SFloat NaN)
      | _ => Err TypeError
      end
  | TimeCol xs => Ok (time_scalar (zmean xs))
  | DeltaCol xs => Ok (delta_scalar (zmean xs))
  end.

(** [1 / x] for a scalar [x]: defined on floats only; a duration or NaT
    does not divide an integer. *)
Definition one_over (x : scalar) : result scalar :=
  match x with
  | SFloat v => Ok (SFloat (fdiv (Fin Qc_one) v))
  | _ => Err TypeError
  end.

(** ** [get_sampling_rate] *)

Definition missing_timestamp_message (time_col : string) : string :=
  "Timestamp column '" +:+ time_col +:+ "' not found in dataframe.".

(** One pass of the loop body: the rate of one recording. *)
Definition sampling_rate_of (time_col : string) (df : DataFrame) : result scalar :=
  if negb (has_column time_col df) then
    Err (ValueError (missing_timestamp_message time_col))
  else
    let* time_series := getitem df time_col in
    let* diffs := series_diff time_series in
    let* time_interval := series_mean diffs in
    one_over time_interval.

(** The loop, with the accumulator [sampling_rates] of the source. *)
Fixpoint get_sampling_rate_loop (time_col : string) (dfs : list DataFrame)
    (sampling_rates : list scalar) : result (list scalar) :=
  match dfs with
  | [] => Ok sampling_rates
  | df :: rest =>
      let* sampling_rate := sampling_rate_of time_col df in
      get_sampling_rate_loop time_col rest (sampling_rates ++ [sampling_rate])
  end.

Definition get_sampling_rate (dfs : list DataFrame) (time_col : string)
  : result (list scalar) :=
  get_sampling_rate_loop time_col dfs [].

(** ** Decidable equality of cells, columns and indexes *)

Definition Qc_eqb (p q : Qc) : bool := Qeq_bool p q.

#[global] Instance Qc_eq_decision : EqDecision Qc.
Proof.
  intros p q. destruct (Qc_eqb p q) eqn:E.
  - left. apply Qc_is_canon. now apply Qeq_bool_iff.
  - right. intros ->. unfold Qc_eqb in E.
    assert (Qeq_bool q q = true) by now apply Qeq_bool_iff.
    congruence.
Defined.

#[global] Instance num_eq_decision : EqDecision num.
Proof. solve_decision. Defined.

#[global] Instance scalar_eq_decision : EqDecision scalar.
Proof. solve_decision. Defined.

#[global] Instance column_eq_decision : EqDecision column.
Proof. solve_decision. Defined.

#[global] Instance index_eq_decision : EqDecision index.
Proof. solve_decision. Defined.

#[global] Instance exn_eq_decision : EqDecision exn.
Proof. solve_decision. Defined.

(** ** The collaborators *)

(** What the code calls but does not define: the biosignal toolkit
    ([nk.ecg_process], [nk.eda_process] and their plotting functions, each
    of which may raise, and each of which reports the warnings it emits),
    Python's [str] on a cell, and two parts of the table library that
    depend on its internals: the outer join of two different indexes, which
    yields the joined index and, for each of its rows, the row of the left
    and of the right frame that lands there; and the frequency grid of
    [resample], which yields the labels of the bins and, for each bin, the
    rows of the frame that fall into it, in time order. *)
Record Externals := mkExternals {
  ProcessorInfo : Type;
  ecg_process : Series -> Z -> result (DataFrame * ProcessorInfo * list string);
  eda_process : Series -> Z -> result (DataFrame * ProcessorInfo * list string);
  ecg_plot : DataFrame -> ProcessorInfo -> Z -> result (list string);
  eda_plot : DataFrame -> Z -> result (list string);
  str_of_scalar : scalar -> string;
  join_index : index -> index -> result (index * list (option nat) * list (option nat));
  resample_bins : string -> index -> result (column * list (list nat))
}.

(** ** Frame operations used by the feature extractor *)

(** Modelled from the spec: [prefix_columns] lives in
    [stress_preprocessor.utils.preprocessing_utils], which is not among the
    sources.  The specification says of it: rename every output feature
    column by prepending the given prefix. *)
Definition prefix_columns (df : DataFrame) (prefix : string) : DataFrame :=
  mkDataFrame (df_index df)
    (map (fun nc : string * column => (prefix +:+ fst nc, snd nc)) (df_columns df)).

(** [df.loc[:, names]]: the named columns in the order asked for. *)
Definition loc_columns (df : DataFrame) (names : list string) : result DataFrame :=
  let* cols := rmap (fun c =>
                       match assoc c (df_columns df) with
                       | Some col => Ok (c, col)
                       | None => Err (KeyError (SStr c))
                       end) names in
  Ok (mkDataFrame (df_index df) cols).

Definition nth_or {A} (d : A) (xs : list A) (pos : option nat) : A :=
  match pos with
  | Some i => nth i xs d
  | None => d
  end.

(** [reindex]: row [i] of the result is row [rows !! i] of the column, and
    a missing cell where there is none. *)
Definition reindex_column (rows : list (option nat)) (c : column) : column :=
  match c with
  | FloatCol xs => FloatCol (map (nth_or NaN xs) rows)
  | ObjCol xs => ObjCol (map (nth_or None xs) rows)
  | TimeCol xs => TimeCol (map (nth_or None xs) rows)
  | DeltaCol xs => DeltaCol (map (nth_or None xs) rows)
  end.

Definition reindex_columns (rows : list (option nat)) (cols : list (string * column))
  : list (string * column) :=
  map (fun nc : string * column => (fst nc, reindex_column rows (snd nc))) cols.

(** [pd.concat([l, r], axis=1)]: the columns of [l] followed by those of
    [r].  Rows are matched by index label: frames with the same index are
    put side by side as they are, others are first re-indexed on the outer
    join of their indexes. *)
Definition concat_columns (ext : Externals) (l r : DataFrame) : result DataFrame :=
  if bool_decide (df_index l = df_index r) then
    Ok (mkDataFrame (df_index l) (df_columns l ++ df_columns r))
  else
    let* joined := join_index ext (df_index l) (df_index r) in
    let ix := fst (fst joined) in
    let lrows := snd (fst joined) in
    let rrows := snd joined in
    Ok (mkDataFrame ix
          (reindex_columns lrows (df_columns l) ++ reindex_columns rrows (df_columns r))).

(** [modes[code]] for [modes : Dict[str, str]]: a key that is not a string
    is not in the dictionary. *)
Definition dict_getitem (modes : gmap string string) (code : scalar) : result string :=
  match code with
  | SStr s =>
      match modes !! s with
      | Some name => Ok name
      | None => Err (KeyError code)
      end
  | _ => Err (KeyError code)
  end.

(** ** The world the extractor writes to *)

Record World := mkWorld {
  w_dirs : gset string;      (* directories that exist *)
  w_files : list string;     (* images saved, oldest first *)
  w_drawn : nat;             (* plots drawn on the current figure *)
  w_log : list string        (* warning records logged, oldest first *)
}.

Definition M (A : Type) : Type := World -> result A * World.

Definition ret {A} (a : A) : M A := fun w => (Ok a, w).

Definition raise {A} (e : exn) : M A := fun w => (Err e, w).

Definition lift {A} (r : result A) : M A := fun w => (r, w).

Definition bind {A B} (m : M A) (k : A -> M B) : M B :=
  fun w =>
    match m w with
    | (Ok a, w') => k a w'
    | (Err e, w') => (Err e, w')
    end.

Notation "x <- m ;; k" := (bind m (fun x => k))
  (at level 100, m at next level, right associativity).
Notation "m ;;; k" := (bind m (fun _ => k))
  (at level 100, right associativity).

Definition draw : M unit :=
  fun w => (Ok tt, mkWorld (w_dirs w) (w_files w) (S (w_drawn w)) (w_log w)).

(** [os.path.exists(d)] *)
Definition path_exists (d : string) : M bool :=
  fun w => (Ok (bool_decide (d ∈ w_dirs w)), w).

(** [os.makedirs(d)] *)
Definition makedirs (d : string) : M unit :=
  fun w => (Ok tt, mkWorld ({[d]} ∪ w_dirs w) (w_files w) (w_drawn w) (w_log w)).

(** [plt.gcf().savefig(path, ...)] *)
Definition savefig (path : string) : M unit :=
  fun w => (Ok tt, mkWorld (w_dirs w) (w_files w ++ [path]) (w_drawn w) (w_log w)).

(** [logging.warning(msg)] *)
Definition logging_warning (msg : string) : M unit :=
  fun w => (Ok tt, mkWorld (w_dirs w) (w_files w) (w_drawn w) (w_log w ++ [msg])).

Fixpoint for_each {A} (f : A -> M unit) (xs : list A) : M unit :=
  match xs with
  | [] => ret tt
  | x :: rest => f x ;;; for_each f rest
  end.

Definition starts_with_slash (s : string) : bool :=
  match s with
  | String c _ => Ascii.eqb c "/"%char
  | EmptyString => false
  end.

Fixpoint ends_with_slash (s : string) : bool :=
  match s with
  | EmptyString => false
  | String c EmptyString => Ascii.eqb c "/"%char
  | String _ rest => ends_with_slash rest
  end.

(** [os.path.join(a, b)] *)
Definition path_join (a b : string) : string :=
  if starts_with_slash b then b
  else if (String.eqb a "" || ends_with_slash a)%bool then a +:+ b
  else a +:+ "/" +:+ b.

(** ** [extract_neuro_features] *)

(** The first argument is a frame or a list of frames. *)
Inductive recordings :=
| Single (df : DataFrame)
| Many (dfs : list DataFrame).

(** [if not isinstance(dfs, list): dfs = [dfs]] *)
Definition as_list (dfs : recordings) : list DataFrame :=
  match dfs with
  | Single df => [df]
  | Many l => l
  end.

Definition invalid_signal_type_message : string :=
  "Invalid value for signal_type. Must be 'ECG' or 'EDA'.".

Section Extract.

Variable ext : Externals.
Variable sr_hz : Z.
Variables signal_col target_col time_col participant scenario_col mode_col : string.
Variable modes : gmap string string.
Variables graph_path signal_type : string.
Variable offline : bool.

(** The dispatch on [signal_type], inside the scope that records
    warnings: the processed frame and the warnings caught.  [sr_hz] is an
    integer, so [int(sr_hz)] is [sr_hz]. *)
Definition run_processor (signal : Series) : M (DataFrame * list string) :=
  if String.eqb signal_type "ECG" then
    r <- lift (ecg_process ext signal sr_hz) ;;
    match r with
    | (neuro_processed, info, caught) =>
        if offline then
          more <- lift (ecg_plot ext neuro_processed info sr_hz) ;;
          draw ;;;
          ret (neuro_processed, caught ++ more)
        else ret (neuro_processed, caught)
    end
  else if String.eqb signal_type "EDA" then
    r <- lift (eda_process ext signal sr_hz) ;;
    match r with
    | (neuro_processed, _, caught) =>
        if offline then
          more <- lift (eda_plot ext neuro_processed sr_hz) ;;
          draw ;;;
          ret (neuro_processed, caught ++ more)
        else ret (neuro_processed, caught)
    end
  else raise (ValueError invalid_signal_type_message).

Definition subject_dir : string :=
  path_join graph_path ("SUBJ_" +:+ participant +:+ "_neurokit_features").

Definition plot_filename (scenario_id : scalar) (mode : string) : string :=
  signal_type +:+ "_FEATS_SUBJ_" +:+ participant +:+ "_SCEN_"
    +:+ str_of_scalar ext scenario_id +:+ "_MODE_" +:+ mode +:+ ".png".

(** The [if offline:] block that saves the figure. *)
Definition save_plot (scenario_id : scalar) (mode : string) : M unit :=
  present <- path_exists subject_dir ;;
  (if present then ret tt else makedirs subject_dir) ;;;
  savefig (path_join graph_path (plot_filename scenario_id mode)).

(** The body of the loop, for one recording: the feature table appended
    to [neuro_feats_dfs]. *)
Definition process_recording (df : DataFrame) : M DataFrame :=
  scenario_id <- lift (let* s := getitem df scenario_col in iloc0 s) ;;
  mode <- lift (let* s := getitem df mode_col in
                let* code := iloc0 s in
                dict_getitem modes code) ;;
  signal <- lift (getitem df signal_col) ;;
  r <- run_processor signal ;;
  (if offline then save_plot scenario_id mode else ret tt) ;;;
  let neuro_processed := prefix_columns (fst r) (signal_type +:+ "_") in
  df_raw_part <- lift (loc_columns df [time_col; scenario_col; mode_col; target_col]) ;;
  neuro_processed <- lift (concat_columns ext df_raw_part neuro_processed) ;;
  for_each (fun warning => logging_warning ("Neurokit2: " +:+ warning)) (snd r) ;;;
  ret neuro_processed.

Fixpoint extract_loop (dfs : list DataFrame) (neuro_feats_dfs : list DataFrame)
  : M (list DataFrame) :=
  match dfs with
  | [] => ret neuro_feats_dfs
  | df :: rest =>
      table <- process_recording df ;;
      extract_loop rest (neuro_feats_dfs ++ [table])
  end.

Definition extract_neuro_features (dfs : recordings) : M (list DataFrame) :=
  extract_loop (as_list dfs) [].

End Extract.

(** ** [resample_dataframe] *)

Inductive aggfunc := AggFirst | AggMean.

(** A Python dict display [{k1: v1, k2: v2, ...}]: keys keep the position
    of their first occurrence, a repeated key keeps its last value. *)
Fixpoint dict_set {V} (k : string) (v : V) (d : list (string * V)) : list (string * V) :=
  match d with
  | [] => [(k, v)]
  | (k', v') :: rest =>
      if String.eqb k k' then (k', v) :: rest else (k', v') :: dict_set k v rest
  end.

Definition dict_display {V} (items : list (string * V)) : list (string * V) :=
  fold_left (fun d kv => dict_set (fst kv) (snd kv) d) items [].

(** The cells of the given rows. *)
Definition take {A} (xs : list A) (rows : list nat) : list A :=
  omap (fun i => xs !! i) rows.

Definition first_num (xs : list num) : num :=
  match List.filter (fun x => negb (is_nan x)) xs with
  | x :: _ => x
  | [] => NaN
  end.

Definition first_some {A} (xs : list (option A)) : option A :=
  match somes xs with
  | x :: _ => Some x
  | [] => None
  end.

(** ['first']: per bin, the first cell that is not missing. *)
Definition agg_first (groups : list (list nat)) (c : column) : column :=
  match c with
  | FloatCol xs => FloatCol (map (fun g => first_num (take xs g)) groups)
  | ObjCol xs => ObjCol (map (fun g => first_some (take xs g)) groups)
  | TimeCol xs => TimeCol (map (fun g => first_some (take xs g)) groups)
  | DeltaCol xs => DeltaCol (map (fun g => first_some (take xs g)) groups)
  end.

(** ['mean']: per bin, the mean of the cells that are not missing; strings
    have no mean. *)
Definition agg_mean (groups : list (list nat)) (c : column) : result column :=
  match c with
  | FloatCol xs => Ok (FloatCol (map (fun g => nanmean (take xs g)) groups))
  | ObjCol xs =>
      let* ms := rmap (fun g => match somes (take xs g) with
                                | [] => Ok None
                                | _ => Err TypeError
                                end) groups in
      Ok (ObjCol ms)
  | TimeCol xs => Ok (TimeCol (map (fun g => zmean (take xs g)) groups))
  | DeltaCol xs => Ok (DeltaCol (map (fun g => zmean (take xs g)) groups))
  end.

Definition aggregate (how : aggfunc) (groups : list (list nat)) (c : column)
  : result column :=
  match how with
  | AggFirst => Ok (agg_first groups c)
  | AggMean => agg_mean groups c
  end.

(** What [df.resample(freq)] returns: the frame, binned. *)
Record Resampler := mkResampler {
  rs_name : option string;
  rs_labels : column;
  rs_groups : list (list nat);
  rs_columns : list (string * column)
}.

Definition index_name (ix : index) : option string :=
  match ix with
  | RangeIndex _ => None
  | LabelIndex name _ => name
  end.

Definition resample (ext : Externals) (df : DataFrame) (target_freq : string)
  : result Resampler :=
  let* bins := resample_bins ext target_freq (df_index df) in
  Ok (mkResampler (index_name (df_index df)) (fst bins) (snd bins) (df_columns df)).

Fixpoint join_quoted (names : list string) : string :=
  match names with
  | [] => ""
  | [c] => "'" +:+ c +:+ "'"
  | c :: rest => "'" +:+ c +:+ "', " +:+ join_quoted rest
  end.

Definition missing_columns_message (names : list string) : string :=
  "Column(s) [" +:+ join_quoted names +:+ "] do not exist".

(** [resampler.agg({column: how, ...})]: every key must be a column; the
    result has one column per key, in the order of the keys, indexed by the
    bin labels. *)
Definition agg (r : Resampler) (spec : list (string * aggfunc)) : result DataFrame :=
  match List.filter (fun kv => match assoc (fst kv) (rs_columns r) with
                               | Some _ => false
                               | None => true
                               end) spec with
  | [] =>
      let* cols := rmap (fun kv : string * aggfunc =>
                           match assoc (fst kv) (rs_columns r) with
                           | Some col =>
                               let* out := aggregate (snd kv) (rs_groups r) col in
                               Ok (fst kv, out)
                           | None => Err (KeyError (SStr (fst kv)))
                           end) spec in
      Ok (mkDataFrame (LabelIndex (rs_name r) (rs_labels r)) cols)
  | missing => Err (KeyError (SStr (missing_columns_message (map fst missing))))
  end.

Definition remove_column (c : string) (cols : list (string * column))
  : list (string * column) :=
  List.filter (fun nc => negb (String.eqb c (fst nc))) cols.

(** [df.set_index(c, inplace=True)]: acts on the frame object itself; the
    second component is the object after the call. *)
Definition set_index_inplace (c : string) (df : DataFrame) : result unit * DataFrame :=
  match assoc c (df_columns df) with
  | Some col =>
      (Ok tt, mkDataFrame (LabelIndex (Some c) col) (remove_column c (df_columns df)))
  | None =>
      (Err (KeyError (SStr ("None of ['" +:+ c +:+ "'] are in the columns"))), df)
  end.

Definition positions (n : nat) : column :=
  FloatCol (map (fun i => Fin (Qc_of_nat i)) (seq 0 n)).

(** [df.reset_index()]: the index becomes the first column, under its name
    (['index'] when it has none), and rows are numbered anew.  The integer
    labels of a range index are held as numbers. *)
Definition reset_index (df : DataFrame) : result DataFrame :=
  let label :=
    match index_name (df_index df) with
    | Some name => name
    | None => if has_column "index" df then "level_0" else "index"
    end in
  let labels :=
    match df_index df with
    | RangeIndex n => positions n
    | LabelIndex _ ls => ls
    end in
  if has_column label df then
    Err (ValueError ("cannot insert " +:+ label +:+ ", already exists"))
  else
    Ok (mkDataFrame (RangeIndex (col_length labels)) ((label, labels) :: df_columns df)).

(** [df.rename(columns=mapping)] *)
Definition rename_columns (mapping : list (string * string)) (df : DataFrame) : DataFrame :=
  mkDataFrame (df_index df)
    (map (fun nc : string * column =>
            (match assoc (fst nc) mapping with
             | Some new => new
             | None => fst nc
             end, snd nc)) (df_columns df)).

(** The result of the call, and the caller's frame [df] as the call
    leaves it. *)
Definition resample_dataframe (ext : Externals) (df : DataFrame)
    (timestamp_col value_col group_col participant_col target_freq : string)
  : result DataFrame * DataFrame :=
  match set_index_inplace timestamp_col df with
  | (Err e, df') => (Err e, df')
  | (Ok _, df') =>
      (let* resampler := resample ext df' target_freq in
       let* resampled_df :=
         agg resampler (dict_display [(participant_col, AggFirst);
                                      (group_col, AggFirst);
                                      (value_col, AggMean)]) in
       let* resampled_df := reset_index resampled_df in
       Ok (rename_columns [("index", "timestamp_col")] resampled_df),
       df')
  end.

(** ** The specification's vocabulary *)

(** The consecutive differences [x1 - x0, x2 - x1, ...] of a sequence of
    timestamps. *)
Definition consecutive_differences (xs : list num) : list num :=
  zip_with fsub (tail xs) xs.

(** The mean interval of a sequence of timestamps, and the rate it stands
    for: [1 / mean_interval]. *)
Definition mean_interval (xs : list num) : num :=
  nanmean (consecutive_differences xs).

Definition rate_of_timestamps (xs : list num) : num :=
  fdiv (Fin Qc_one) (mean_interval xs).

(** [n] timestamps from [t0] on, [delta] apart. *)
Fixpoint uniform_timestamps (t0 delta : Qc) (n : nat) : list num :=
  match n with
  | O => []
  | S k => Fin t0 :: uniform_timestamps (t0 + delta)%Qc delta k
  end.

(** The recording has a timestamp column [tc] of numbers, with cells [ts]. *)
Definition float_column (tc : string) (df : DataFrame) (ts : list num) : Prop :=
  assoc tc (df_columns df) = Some (FloatCol ts).

(** The timestamp column [tc], where the recording has one, holds numbers. *)
Definition numeric_if_present (tc : string) (df : DataFrame) : Prop :=
  match assoc tc (df_columns df) with
  | Some (FloatCol _) | None => True
  | Some _ => False
  end.

(** The frame the external processor hands back for a signal: that of
    [ecg_process] when the kind is ['ECG'], that of [eda_process] when it is
    ['EDA']. *)
Definition processor_output (ext : Externals) (sr_hz : Z) (signal_type : string)
    (signal : Series) (processed : DataFrame) : Prop :=
  (signal_type = "ECG"
   /\ exists info caught, ecg_process ext signal sr_hz = Ok (processed, info, caught))
  \/ (signal_type = "EDA"
      /\ exists info caught, eda_process ext signal sr_hz = Ok (processed, info, caught)).

(** ** Example data *)

Definition half : Qc := Q2Qc (1 # 2).

(** Three samples, half a second apart. *)
Definition drive_a : DataFrame :=
  mkDataFrame (RangeIndex 3)
    [("time", FloatCol (uniform_timestamps Qc_zero half 3));
     ("scenario", ObjCol [Some "S1"; Some "S1"; Some "S1"]);
     ("mode", ObjCol [Some "0"; Some "0"; Some "0"]);
     ("ecg", FloatCol [Fin Qc_one; Fin Qc_zero; Fin Qc_one]);
     ("stress", FloatCol [Fin Qc_zero; Fin Qc_zero; Fin Qc_one])].

Definition drive_b : DataFrame :=
  mkDataFrame (RangeIndex 2)
    [("time", FloatCol (uniform_timestamps Qc_one half 2));
     ("scenario", ObjCol [Some "S2"; Some "S2"]);
     ("mode", ObjCol [Some "1"; Some "1"]);
     ("ecg", FloatCol [Fin Qc_zero; Fin Qc_one]);
     ("stress", FloatCol [Fin Qc_one; Fin Qc_one])].

(** A recording of a single sample. *)
Definition drive_short : DataFrame :=
  mkDataFrame (RangeIndex 1)
    [("time", FloatCol [Fin Qc_zero]);
     ("ecg", FloatCol [Fin Qc_one])].

(** A recording without a timestamp column. *)
Definition drive_untimed : DataFrame :=
  mkDataFrame (RangeIndex 2)
    [("scenario", ObjCol [Some "S3"; Some "S3"]);
     ("ecg", FloatCol [Fin Qc_zero; Fin Qc_one])].

(** A recording whose mode code has no name in [example_modes]. *)
Definition drive_unknown_mode : DataFrame :=
  mkDataFrame (RangeIndex 2)
    [("time", FloatCol (uniform_timestamps Qc_zero half 2));
     ("scenario", ObjCol [Some "S4"; Some "S4"]);
     ("mode", ObjCol [Some "7"; Some "7"]);
     ("ecg", FloatCol [Fin Qc_zero; Fin Qc_one]);
     ("stress", FloatCol [Fin Qc_one; Fin Qc_one])].

Definition example_modes : gmap string string :=
  <["1" := "sport"]> (<["0" := "eco"]> ∅).

(** A stand-in for the toolkit: the processor returns the raw signal and a
    copy of it as the cleaned signal, on the index of the signal, and emits
    one warning; plotting emits none. *)
Definition stub_process (signal : Series) (sr : Z)
  : result (DataFrame * unit * list string) :=
  Ok (mkDataFrame (s_index signal)
        [("Raw", s_values signal); ("Clean", s_values signal)],
      tt, ["too few peaks"]).

Definition rows_where {A} (p : A -> bool) (xs : list A) : list nat :=
  List.filter (fun i => match xs !! i with Some x => p x | None => false end)
    (seq 0 (length xs)).

(** A stand-in for the frequency grid: one-second bins over a time index,
    from the bin of the earliest label to the bin of the latest. *)
Definition second_grid (freq : string) (ix : index) : result (column * list (list nat)) :=
  if negb (String.eqb freq "1s") then Err (ValueError "Invalid frequency")
  else
    match ix with
    | LabelIndex _ (TimeCol ts) =>
        match somes ts with
        | [] => Ok (TimeCol [], [])
        | t :: rest =>
            let w := 1000000000%Z in
            let lo := (fold_left Z.min rest t / w)%Z in
            let hi := (fold_left Z.max rest t / w)%Z in
            let bins := map (fun k => (lo + Z.of_nat k)%Z) (seq 0 (Z.to_nat (hi - lo + 1))) in
            Ok (TimeCol (map (fun b => Some (b * w)%Z) bins),
                map (fun b => rows_where (fun o => match o with
                                                   | Some x => Z.eqb (x / w) b
                                                   | None => false
                                                   end) ts) bins)
        end
    | _ => Err TypeError
    end.

Definition stub_externals : Externals :=
  mkExternals unit stub_process stub_process
    (fun _ _ _ => Ok []) (fun _ _ => Ok [])
    (fun x => match x with SStr s => s | _ => "?" end)
    (fun _ _ => Err InvalidIndexError)
    second_grid.

Definition empty_world : World := mkWorld ∅ [] 0 [].

(** Four samples over two seconds; the value column is labelled
    ["index"]. *)
Definition trip : DataFrame :=
  mkDataFrame (RangeIndex 4)
    [("time", TimeCol [Some 0%Z; Some 500000000%Z; Some 1000000000%Z; Some 1500000000%Z]);
     ("pid", ObjCol [Some "p1"; Some "p1"; Some "p1"; Some "p1"]);
     ("grp", ObjCol [Some "a"; Some "a"; Some "b"; Some "b"]);
     ("index", FloatCol [Fin Qc_zero; Fin Qc_one; Fin Qc_one; Fin Qc_one]);
     ("note", ObjCol [None; None; None; None])].

(** The same samples with the value column labelled ["speed"]. *)
Definition trip_speed : DataFrame :=
  mkDataFrame (RangeIndex 4)
    [("time", TimeCol [Some 0%Z; Some 500000000%Z; Some 1000000000%Z; Some 1500000000%Z]);
     ("pid", ObjCol [Some "p1"; Some "p1"; Some "p1"; Some "p1"]);
     ("grp", ObjCol [Some "a"; Some "a"; Some "b"; Some "b"]);
     ("speed", FloatCol [Fin Qc_zero; Fin Qc_one; Fin Qc_one; Fin Qc_one]);
     ("note", ObjCol [None; None; None; None])].

(** The world after one image has been saved at [path], the directory
    [dir] being there or made; and the world after the warnings [msgs] have
    been logged. *)
Definition saved_world (dir path : string) (w : World) : World :=
  mkWorld ({[dir]} ∪ w_dirs w) (w_files w ++ [path]) (w_drawn w) (w_log w).

Definition logged_world (msgs : list string) (w : World) : World :=
  mkWorld (w_dirs w) (w_files w) (w_drawn w)
    (w_log w ++ map (String.append "Neurokit2: ") msgs).

(** Recordings whose timestamps are datetimes: two samples one second
    apart, and a single sample. *)
Definition drive_datetime : DataFrame :=
  mkDataFrame (RangeIndex 2)
    [("time", TimeCol [Some 0%Z; Some 1000000000%Z]);
     ("ecg", FloatCol [Fin Qc_zero; Fin Qc_one])].

Definition drive_datetime_short : DataFrame :=
  mkDataFrame (RangeIndex 1)
    [("time", TimeCol [Some 0%Z]);
     ("ecg", FloatCol [Fin Qc_one])].

(** A recording whose clock stood still. *)
Definition drive_stalled : DataFrame :=
  mkDataFrame (RangeIndex 3)
    [("time", FloatCol [Fin Qc_one; Fin Qc_one; Fin Qc_one]);
     ("ecg", FloatCol [Fin Qc_one; Fin Qc_zero; Fin Qc_one])].

(** A recording with irregular timestamps: 0, 1/2, 3. *)
Definition drive_irregular : DataFrame :=
  mkDataFrame (RangeIndex 3)
    [("time", FloatCol (map Fin [Qc_zero; half; Q2Qc 3]));
     ("ecg", FloatCol [Fin Qc_one; Fin Qc_zero; Fin Qc_one])].

(** A recording without rows. *)
Definition drive_empty : DataFrame :=
  mkDataFrame (RangeIndex 0)
    [("time", FloatCol []);
     ("scenario", ObjCol []);
     ("mode", ObjCol []);
     ("ecg", FloatCol []);
     ("stress", FloatCol [])].

(** A recording without the target column. *)
Definition drive_no_target : DataFrame :=
  mkDataFrame (RangeIndex 2)
    [("time", FloatCol (uniform_timestamps Qc_zero half 2));
     ("scenario", ObjCol [Some "S5"; Some "S5"]);
     ("mode", ObjCol [Some "1"; Some "1"]);
     ("ecg", FloatCol [Fin Qc_zero; Fin Qc_one])].

(** ** Properties of the sampling-rate estimator *)

Lemma get_sampling_rate_loop_rmap tc dfs acc :
  get_sampling_rate_loop tc dfs acc =
  let* rates := rmap (sampling_rate_of tc) dfs in Ok (acc ++ rates).
Proof.
  revert acc. induction dfs as [|df rest IH]; intros acc; simpl.
  - now rewrite app_nil_r.
  - destruct (sampling_rate_of tc df) as [r|e]; simpl; [|reflexivity].
    rewrite IH. destruct (rmap (sampling_rate_of tc) rest); simpl; [|reflexivity].
    now rewrite <- app_assoc.
Qed.

Lemma diff_from_zip x rest : diff_from x rest = zip_with fsub rest (x :: rest).
Proof.
  revert x. induction rest as [|y rest IH]; intros x; simpl; [reflexivity|].
  now rewrite IH.
Qed.

Lemma nanmean_float_diff xs : nanmean (float_diff xs) = mean_interval xs.
Proof.
  unfold mean_interval, consecutive_differences.
  destruct xs as [|x rest]; simpl; [reflexivity|].
  unfold nanmean at 1. simpl. now rewrite diff_from_zip.
Qed.

Lemma sampling_rate_of_float tc df ts :
  float_column tc df ts ->
  sampling_rate_of tc df = Ok (SFloat (rate_of_timestamps ts)).
Proof.
  unfold float_column, sampling_rate_of, has_column, getitem. intros ->. simpl.
  unfold series_mean. simpl. now rewrite nanmean_float_diff.
Qed.

Lemma rmap_sampling_rate_float tc dfs tss :
  Forall2 (float_column tc) dfs tss ->
  rmap (sampling_rate_of tc) dfs = Ok (map (fun ts => SFloat (rate_of_timestamps ts)) tss).
Proof.
  induction 1 as [|df ts dfs tss Hdf _ IH]; simpl; [reflexivity|].
  rewrite (sampling_rate_of_float _ _ _ Hdf). simpl. now rewrite IH.
Qed.

Lemma get_sampling_rate_float tc dfs tss :
  Forall2 (float_column tc) dfs tss ->
  get_sampling_rate dfs tc = Ok (map (fun ts => SFloat (rate_of_timestamps ts)) tss).
Proof.
  intros H. unfold get_sampling_rate. rewrite get_sampling_rate_loop_rmap.
  now rewrite (rmap_sampling_rate_float _ _ _ H).
Qed.

Lemma Qc_of_nat_S n : Qc_of_nat (S n) = (Qc_of_nat n + Qc_one)%Qc.
Proof.
  unfold Qc_of_nat, Qc_one. apply Qc_is_canon. unfold Qcplus. simpl this.
  rewrite !Qred_correct, Nat2Z.inj_succ. unfold Z.succ.
  now rewrite inject_Z_plus.
Qed.

Lemma Qc_of_nat_nonzero n : (0 < n)%nat -> Qc_of_nat n <> Qc_zero.
Proof.
  intros Hn H. unfold Qc_of_nat, Qc_zero in H. apply Q2Qc_eq_iff in H.
  unfold Qeq in H. simpl in H. lia.
Qed.

Lemma fdiv_finite p q : q <> Qc_zero -> fdiv (Fin p) (Fin q) = Fin (p / q)%Qc.
Proof.
  intros Hq. unfold fdiv. destruct (Qccompare q Qc_zero) eqn:E; try reflexivity.
  apply Qceq_alt in E. contradiction.
Qed.

Lemma fold_fadd_repeat d m a :
  fold_left fadd (repeat (Fin d) m) (Fin a) = Fin (a + Qc_of_nat m * d)%Qc.
Proof.
  revert a. induction m as [|m IH]; intros a.
  - simpl. f_equal. change (Qc_of_nat 0) with Qc_zero. unfold Qc_zero. ring.
  - simpl. rewrite IH, Qc_of_nat_S. f_equal. unfold Qc_one. ring.
Qed.

Lemma filter_present_repeat d m :
  List.filter (fun x => negb (is_nan x)) (repeat (Fin d) m) = repeat (Fin d) m.
Proof. induction m as [|m IH]; simpl; [reflexivity|]. now rewrite IH. Qed.

Lemma nanmean_repeat d m : (0 < m)%nat -> nanmean (repeat (Fin d) m) = Fin d.
Proof.
  intros Hm. unfold nanmean. rewrite filter_present_repeat.
  destruct m as [|m]; [lia|].
  change (match repeat (Fin d) (S m) with
          | [] => NaN
          | _ => fdiv (fsum (repeat (Fin d) (S m)))
                   (Fin (Qc_of_nat (length (repeat (Fin d) (S m)))))
          end)
    with (fdiv (fsum (repeat (Fin d) (S m)))
            (Fin (Qc_of_nat (length (repeat (Fin d) (S m)))))).
  unfold fsum. rewrite fold_fadd_repeat, repeat_length.
  pose proof (Qc_of_nat_nonzero (S m) Hm) as Hnz.
  rewrite (fdiv_finite _ _ Hnz). f_equal. unfold Qc_zero in *. field. exact Hnz.
Qed.

Lemma diff_from_uniform t0 delta k :
  diff_from (Fin t0) (uniform_timestamps (t0 + delta)%Qc delta k) = repeat (Fin delta) k.
Proof.
  revert t0. induction k as [|k IH]; intros t0; simpl; [reflexivity|].
  rewrite IH. f_equal. f_equal. ring.
Qed.

Lemma rate_of_uniform t0 delta n :
  (2 <= n)%nat -> delta <> Qc_zero ->
  rate_of_timestamps (uniform_timestamps t0 delta n) = Fin (Qc_one / delta)%Qc.
Proof.
  intros Hn Hd. unfold rate_of_timestamps, mean_interval, consecutive_differences.
  destruct n as [|k]; [lia|]. simpl uniform_timestamps. simpl tail.
  rewrite <- diff_from_zip, diff_from_uniform.
  rewrite nanmean_repeat by lia. now apply fdiv_finite.
Qed.

(** C6, as the code has it.  When every recording has the timestamp
    column as a column of numbers, [get_sampling_rate] returns one rate per
    recording, in the order of the recordings, and the rate of a recording
    is 1 divided by the mean of the consecutive differences of its
    timestamps.  In exact arithmetic, for [n >= 2] timestamps spaced
    [delta <> 0] apart, that rate is [1 / delta]. *)
Theorem get_sampling_rate_mean_interval (tc : string) (dfs : list DataFrame)
    (tss : list (list num)) :
  Forall2 (float_column tc) dfs tss ->
  get_sampling_rate dfs tc
    = Ok (map (fun ts => SFloat (fdiv (Fin Qc_one) (nanmean (zip_with fsub (tail ts) ts)))) tss)
  /\ length tss = length dfs
  /\ forall t0 delta n df,
       (2 <= n)%nat -> delta <> Qc_zero ->
       float_column tc df (uniform_timestamps t0 delta n) ->
       get_sampling_rate [df] tc = Ok [SFloat (Fin (Qc_one / delta)%Qc)].
Proof.
  intros H. split; [|split].
  - exact (get_sampling_rate_float tc dfs tss H).
  - symmetry. exact (Forall2_length _ _ _ H).
  - intros t0 delta n df Hn Hd Hdf.
    rewrite (get_sampling_rate_float tc [df] [uniform_timestamps t0 delta n]).
    + simpl. now rewrite rate_of_uniform.
    + constructor; [exact Hdf | constructor].
Qed.

Lemma get_sampling_rate_mean_interval_witness :
  Forall2 (float_column "time") [drive_a; drive_b]
    [uniform_timestamps Qc_zero half 3; uniform_timestamps Qc_one half 2]
  /\ length [uniform_timestamps Qc_zero half 3; uniform_timestamps Qc_one half 2]
       = length [drive_a; drive_b].
Proof.
  split.
  - repeat constructor.
  - apply (get_sampling_rate_mean_interval "time" [drive_a; drive_b]
             [uniform_timestamps Qc_zero half 3; uniform_timestamps Qc_one half 2]).
    repeat constructor.
Defined.

Lemma rmap_sampling_rate_missing tc dfs :
  Forall (numeric_if_present tc) dfs ->
  Exists (fun df => has_column tc df = false) dfs ->
  rmap (sampling_rate_of tc) dfs
    = Err (ValueError (missing_timestamp_message tc)).
Proof.
  induction dfs as [|df rest IH]; intros Hnum Hex.
  - inversion Hex.
  - inversion Hnum as [|? ? Hdf Hrest]; subst. simpl.
    unfold numeric_if_present in Hdf.
    destruct (assoc tc (df_columns df)) as [col|] eqn:E.
    + destruct col as [ts| | |]; try contradiction.
      rewrite (sampling_rate_of_float tc df ts E). simpl.
      rewrite IH; [reflexivity | exact Hrest |].
      inversion Hex as [? ? Hhd|? ? Htl]; subst; [|exact Htl].
      unfold has_column in Hhd. rewrite E in Hhd. discriminate.
    + unfold sampling_rate_of, has_column. now rewrite E.
Qed.

Lemma rmap_sampling_rate_aborts tc dfs :
  Exists (fun df => has_column tc df = false) dfs ->
  exists e, rmap (sampling_rate_of tc) dfs = Err e.
Proof.
  induction 1 as [df rest Hdf | df rest _ IH]; simpl.
  - unfold sampling_rate_of. rewrite Hdf. simpl. eauto.
  - destruct (sampling_rate_of tc df) as [r|e]; simpl; [|eauto].
    destruct IH as [e ->]. simpl. eauto.
Qed.

(** C6 as stated does not hold of every recording that has the timestamp
    column: on a column of datetimes the mean interval is a duration, and 1
    divided by a duration raises a [TypeError]. *)
Lemma get_sampling_rate_datetime_raises :
  has_column "time" drive_datetime = true
  /\ get_sampling_rate [drive_datetime] "time" = Err TypeError.
Proof. split; reflexivity. Qed.

Lemma rate_of_short ts : (length ts < 2)%nat -> rate_of_timestamps ts = NaN.
Proof.
  destruct ts as [|x [|y rest]]; simpl; intros H; try reflexivity; lia.
Qed.

(** ** Properties of the feature extractor *)

Lemma reindex_columns_names rows cols :
  map fst (reindex_columns rows cols) = map fst cols.
Proof.
  unfold reindex_columns. rewrite map_map. simpl. reflexivity.
Qed.

Lemma prefix_columns_names df prefix :
  column_names (prefix_columns df prefix) = map (String.append prefix) (column_names df).
Proof.
  unfold column_names, prefix_columns. simpl. now rewrite !map_map.
Qed.

Lemma loc_columns_four df a b c d part :
  loc_columns df [a; b; c; d] = Ok part ->
  exists ca cb cc cd,
    assoc a (df_columns df) = Some ca /\ assoc b (df_columns df) = Some cb
    /\ assoc c (df_columns df) = Some cc /\ assoc d (df_columns df) = Some cd
    /\ part = mkDataFrame (df_index df) [(a, ca); (b, cb); (c, cc); (d, cd)].
Proof.
  unfold loc_columns. simpl.
  destruct (assoc a (df_columns df)) as [ca|]; simpl; [|discriminate].
  destruct (assoc b (df_columns df)) as [cb|]; simpl; [|discriminate].
  destruct (assoc c (df_columns df)) as [cc|]; simpl; [|discriminate].
  destruct (assoc d (df_columns df)) as [cd|]; simpl; [|discriminate].
  intros [= <-]. now exists ca, cb, cc, cd.
Qed.

Lemma concat_columns_names ext l r out :
  concat_columns ext l r = Ok out ->
  column_names out = column_names l ++ column_names r.
Proof.
  unfold concat_columns, column_names. case_bool_decide.
  - intros [= <-]. simpl. now rewrite map_app.
  - destruct (join_index ext (df_index l) (df_index r)) as [j|]; simpl; [|discriminate].
    intros [= <-]. simpl. now rewrite map_app, !reindex_columns_names.
Qed.

Lemma concat_columns_aligned ext l r :
  df_index l = df_index r ->
  concat_columns ext l r = Ok (mkDataFrame (df_index l) (df_columns l ++ df_columns r)).
Proof.
  intros H. unfold concat_columns. now rewrite bool_decide_eq_true_2.
Qed.

Section ExtractProperties.

Variable ext : Externals.
Variable sr_hz : Z.
Variables signal_col target_col time_col participant scenario_col mode_col : string.
Variable modes : gmap string string.
Variables graph_path signal_type : string.
Variable offline : bool.

Local Abbreviation step := (process_recording ext sr_hz signal_col target_col time_col
                    participant scenario_col mode_col modes graph_path signal_type offline).
Local Abbreviation loop := (extract_loop ext sr_hz signal_col target_col time_col
                    participant scenario_col mode_col modes graph_path signal_type offline).
Local Abbreviation dispatch := (run_processor ext sr_hz signal_type offline).

Lemma extract_loop_app pre post acc w :
  loop (pre ++ post) acc w =
  match loop pre acc w with
  | (Ok acc', w') => loop post acc' w'
  | (Err e, w') => (Err e, w')
  end.
Proof.
  revert acc w. induction pre as [|df pre IH]; intros acc w; simpl; [reflexivity|].
  unfold bind. destruct (step df w) as [[table|e] w1]; [apply IH | reflexivity].
Qed.

Lemma extract_loop_tables dfs acc w out w' :
  loop dfs acc w = (Ok out, w') ->
  exists tables,
    out = acc ++ tables
    /\ Forall2 (fun df table => exists w1 w2, step df w1 = (Ok table, w2)) dfs tables.
Proof.
  revert acc w. induction dfs as [|df rest IH]; intros acc w; simpl.
  - intros [= <- <-]. exists []. split; [now rewrite app_nil_r | constructor].
  - unfold bind. destruct (step df w) as [[table|e] w1] eqn:E; [|discriminate].
    intros H. destruct (IH _ _ H) as (tables & -> & Hall).
    exists (table :: tables). split; [now rewrite <- app_assoc|].
    constructor; [now exists w, w1 | exact Hall].
Qed.

Lemma run_processor_output signal w r w' :
  dispatch signal w = (Ok r, w') ->
  processor_output ext sr_hz signal_type signal (fst r).
Proof.
  unfold run_processor, processor_output.
  destruct (String.eqb signal_type "ECG") eqn:E1.
  - apply String.eqb_eq in E1. unfold bind, lift.
    destruct (ecg_process ext signal sr_hz) as [[[np info] caught]|]; [|discriminate].
    intros H. left. split; [exact E1|]. exists info, caught.
    destruct offline.
    + destruct (ecg_plot ext np info sr_hz); [|discriminate].
      simpl in H. injection H as <- _. reflexivity.
    + injection H as <- _. reflexivity.
  - destruct (String.eqb signal_type "EDA") eqn:E2; [|discriminate].
    apply String.eqb_eq in E2. unfold bind, lift.
    destruct (eda_process ext signal sr_hz) as [[[np info] caught]|]; [|discriminate].
    intros H. right. split; [exact E2|]. exists info, caught.
    destruct offline.
    + destruct (eda_plot ext np sr_hz); [|discriminate].
      simpl in H. injection H as <- _. reflexivity.
    + injection H as <- _. reflexivity.
Qed.

Lemma process_recording_table df w table w' :
  step df w = (Ok table, w') ->
  exists signal (r : DataFrame * list string) part,
    getitem df signal_col = Ok signal
    /\ processor_output ext sr_hz signal_type signal (fst r)
    /\ loc_columns df [time_col; scenario_col; mode_col; target_col] = Ok part
    /\ concat_columns ext part (prefix_columns (fst r) (signal_type +:+ "_")) = Ok table.
Proof.
  unfold process_recording, bind, lift.
  destruct (let* s := getitem df scenario_col in iloc0 s) as [sid|]; [|discriminate].
  destruct (let* s := getitem df mode_col in
            let* code := iloc0 s in dict_getitem modes code) as [mode|]; [|discriminate].
  destruct (getitem df signal_col) as [signal|]; [|discriminate].
  destruct (dispatch signal w) as [[r|] w1] eqn:Er; [|discriminate].
  destruct ((if offline
             then save_plot ext participant graph_path signal_type sid mode
             else ret tt) w1) as [[u|] w2]; [|discriminate].
  destruct (loc_columns df [time_col; scenario_col; mode_col; target_col])
    as [part|]; [|discriminate].
  destruct (concat_columns ext part (prefix_columns (fst r) (signal_type +:+ "_")))
    as [out|] eqn:Ec; [|discriminate].
  destruct (for_each _ (snd r) w2) as [[u'|] w3]; [|discriminate].
  unfold ret. intros [= <- <-].
  exists signal, r, part. repeat split; try reflexivity.
  - exact (run_processor_output _ _ _ _ Er).
  - exact Ec.
Qed.

Local Abbreviation extract := (extract_neuro_features ext sr_hz signal_col target_col
                                 time_col participant scenario_col mode_col modes
                                 graph_path signal_type offline).

Lemma process_recording_invalid_signal_type df w sid code mode signal :
  signal_type <> "ECG" -> signal_type <> "EDA" ->
  (let* s := getitem df scenario_col in iloc0 s) = Ok sid ->
  (let* s := getitem df mode_col in iloc0 s) = Ok code ->
  dict_getitem modes code = Ok mode ->
  getitem df signal_col = Ok signal ->
  step df w = (Err (ValueError invalid_signal_type_message), w).
Proof.
  intros Hecg Heda Hsid Hcode Hmode Hsig.
  unfold process_recording, bind, lift. rewrite Hsid.
  destruct (getitem df mode_col) as [s|]; [|discriminate]. simpl in Hcode |- *.
  rewrite Hcode. simpl. rewrite Hmode, Hsig.
  unfold run_processor.
  apply String.eqb_neq in Hecg, Heda. now rewrite Hecg, Heda.
Qed.

Lemma process_recording_unknown_mode df w sid code :
  (let* s := getitem df scenario_col in iloc0 s) = Ok sid ->
  (let* s := getitem df mode_col in iloc0 s) = Ok code ->
  (forall s, code = SStr s -> modes !! s = None) ->
  step df w = (Err (KeyError code), w).
Proof.
  intros Hsid Hcode Habsent.
  unfold process_recording, bind, lift. rewrite Hsid.
  destruct (getitem df mode_col) as [s|]; [|discriminate]. simpl in Hcode |- *.
  rewrite Hcode. simpl.
  assert (dict_getitem modes code = Err (KeyError code)) as ->; [|reflexivity].
  unfold dict_getitem. destruct code as [x|k|t|d|]; try reflexivity.
  now rewrite (Habsent k eq_refl).
Qed.

(** C1, as the code has it.  With a signal type other than ['ECG'] and
    ['EDA'] and at least one recording, whose first recording lets its
    scenario, mode and signal columns be read and has its mode code in the
    mode map, the call raises the invalid-argument error while it processes
    that first recording, after those reads and that lookup: nothing is
    plotted, saved or logged, and the recordings that follow are not
    processed, however many they are.  With no recording at all the call
    returns the empty list. *)
Theorem extract_invalid_signal_type (df : DataFrame) (rest : list DataFrame)
    (w : World) (sid code : scalar) (mode : string) (signal : Series) :
  signal_type <> "ECG" -> signal_type <> "EDA" ->
  (let* s := getitem df scenario_col in iloc0 s) = Ok sid ->
  (let* s := getitem df mode_col in iloc0 s) = Ok code ->
  dict_getitem modes code = Ok mode ->
  getitem df signal_col = Ok signal ->
  extract (Many (df :: rest)) w
    = (Err (ValueError "Invalid value for signal_type. Must be 'ECG' or 'EDA'."), w)
  /\ extract (Many []) w = (Ok [], w).
Proof.
  intros Hecg Heda Hsid Hcode Hmode Hsig. split; [|reflexivity].
  unfold extract_neuro_features. simpl. unfold bind.
  now rewrite (process_recording_invalid_signal_type df w sid code mode signal).
Qed.

(** C2.  With no recordings the call returns the empty list and raises
    nothing, whatever the signal type, valid or not: the check of the
    signal type sits inside the loop over the recordings. *)
Theorem extract_no_recordings (w : World) :
  extract (Many []) w = (Ok [], w).
Proof. reflexivity. Qed.

(** C5.  The feature table of a recording has, from the left, the four
    context columns time, scenario, mode and target under their own labels,
    then the columns of the external processor's output, each label
    prefixed with the signal type and an underscore.  When the processor's
    output is indexed as the recording is, the context columns are those of
    the recording and the feature columns those of the processor, cell for
    cell. *)
Theorem feature_table_columns (df : DataFrame) (w : World) (table : DataFrame)
    (w' : World) :
  step df w = (Ok table, w') ->
  exists signal processed c_time c_scenario c_mode c_target,
    getitem df signal_col = Ok signal
    /\ processor_output ext sr_hz signal_type signal processed
    /\ assoc time_col (df_columns df) = Some c_time
    /\ assoc scenario_col (df_columns df) = Some c_scenario
    /\ assoc mode_col (df_columns df) = Some c_mode
    /\ assoc target_col (df_columns df) = Some c_target
    /\ column_names table
       = [time_col; scenario_col; mode_col; target_col]
           ++ map (String.append (signal_type +:+ "_")) (column_names processed)
    /\ (df_index df = df_index processed ->
        table = mkDataFrame (df_index df)
                  ([(time_col, c_time); (scenario_col, c_scenario);
                    (mode_col, c_mode); (target_col, c_target)]
                     ++ map (fun nc : string * column =>
                               ((signal_type +:+ "_") +:+ fst nc, snd nc))
                          (df_columns processed))).
Proof.
  intros H.
  destruct (process_recording_table df w table w' H)
    as (signal & r & part & Hsig & Hout & Hloc & Hcat).
  destruct (loc_columns_four _ _ _ _ _ _ Hloc)
    as (ca & cb & cc & cd & Ha & Hb & Hc & Hd & ->).
  exists signal, (fst r), ca, cb, cc, cd.
  repeat (split; [assumption|]). split.
  - rewrite (concat_columns_names _ _ _ _ Hcat), prefix_columns_names. reflexivity.
  - intros Hix. rewrite concat_columns_aligned in Hcat by exact Hix.
    now injection Hcat as <-.
Qed.

(** C8.  When the recordings before it have been processed and a recording
    is reached whose first row carries a mode code that the mode map does
    not have, the call raises the [KeyError] of the map access for that
    code; nothing is returned, and the world is the one the earlier
    recordings left: the recordings after it are not processed. *)
Theorem extract_unknown_mode_aborts (pre : list DataFrame) (df : DataFrame)
    (post : list DataFrame) (w : World) (tables : list DataFrame) (w' : World)
    (sid code : scalar) :
  extract (Many pre) w = (Ok tables, w') ->
  (let* s := getitem df scenario_col in iloc0 s) = Ok sid ->
  (let* s := getitem df mode_col in iloc0 s) = Ok code ->
  (forall s, code = SStr s -> modes !! s = None) ->
  extract (Many (pre ++ df :: post)) w = (Err (KeyError code), w').
Proof.
  unfold extract_neuro_features. simpl. intros Hpre Hsid Hcode Habsent.
  rewrite extract_loop_app, Hpre. simpl. unfold bind.
  now rewrite (process_recording_unknown_mode df w' sid code).
Qed.

(** C9.  A call that returns, returns one feature table per recording, in
    the order of the recordings: the i-th table is the feature table of the
    i-th recording.  A single frame is handled as the list of that one
    frame, and then yields a list of one table. *)
Theorem extract_one_table_per_recording (dfs : recordings) (w : World)
    (tables : list DataFrame) (w' : World) :
  extract dfs w = (Ok tables, w') ->
  length tables = length (as_list dfs)
  /\ Forall2 (fun df table => exists w1 w2, step df w1 = (Ok table, w2))
       (as_list dfs) tables
  /\ (forall df, dfs = Single df ->
        extract (Single df) w = extract (Many [df]) w
        /\ exists table, tables = [table]).
Proof.
  unfold extract_neuro_features. intros H.
  destruct (extract_loop_tables _ _ _ _ _ H) as (ts & -> & Hall). simpl.
  split; [symmetry; exact (Forall2_length _ _ _ Hall)|].
  split; [exact Hall|].
  intros df ->. split; [reflexivity|]. simpl in Hall.
  inversion Hall as [|? t ? rest _ Hrest]; subst. inversion Hrest; subst.
  now exists t.
Qed.

End ExtractProperties.

(** C1 as stated does not hold: with the signal type ["PPG"], no recording
    gives the empty list and no error, and a recording whose mode code is
    unknown gives the [KeyError] of the mode lookup, which therefore comes
    before the check of the signal type. *)
Lemma extract_invalid_signal_type_not_fail_fast :
  extract_neuro_features stub_externals 2 "ecg" "stress" "time" "p01" "scenario" "mode"
    example_modes "plots" "PPG" false (Many []) empty_world
  = (Ok [], empty_world)
  /\ extract_neuro_features stub_externals 2 "ecg" "stress" "time" "p01" "scenario" "mode"
       example_modes "plots" "PPG" false (Many [drive_unknown_mode; drive_a]) empty_world
     = (Err (KeyError (SStr "7")), empty_world)
  /\ KeyError (SStr "7") <> ValueError invalid_signal_type_message.
Proof.
  split; [reflexivity|]. split; [vm_compute; reflexivity | discriminate].
Qed.

Lemma extract_invalid_signal_type_witness :
  "PPG" <> "ECG" /\ "PPG" <> "EDA"
  /\ extract_neuro_features stub_externals 2 "ecg" "stress" "time" "p01" "scenario" "mode"
       example_modes "plots" "PPG" true (Many [drive_a; drive_b]) empty_world
     = (Err (ValueError "Invalid value for signal_type. Must be 'ECG' or 'EDA'."),
        empty_world).
Proof.
  split; [discriminate|]. split; [discriminate|].
  apply (extract_invalid_signal_type stub_externals 2 "ecg" "stress" "time" "p01"
           "scenario" "mode" example_modes "plots" "PPG" true drive_a [drive_b]
           empty_world (SStr "S1") (SStr "0") "eco"
           (mkSeries (RangeIndex 3) (FloatCol [Fin Qc_one; Fin Qc_zero; Fin Qc_one]))).
  - discriminate.
  - discriminate.
  - reflexivity.
  - reflexivity.
  - vm_compute. reflexivity.
  - reflexivity.
Defined.

Lemma feature_table_columns_witness :
  exists table w',
    process_recording stub_externals 2 "ecg" "stress" "time" "p01" "scenario" "mode"
      example_modes "plots" "ECG" false drive_a empty_world = (Ok table, w')
    /\ column_names table
       = ["time"; "scenario"; "mode"; "stress"; "ECG_Raw"; "ECG_Clean"].
Proof.
  eexists. eexists. split; [vm_compute; reflexivity|].
  edestruct (feature_table_columns stub_externals 2 "ecg" "stress" "time" "p01"
               "scenario" "mode" example_modes "plots" "ECG" false drive_a empty_world)
    as (signal & processed & c1 & c2 & c3 & c4 & _ & _ & _ & _ & _ & _ & _ & _).
  - vm_compute. reflexivity.
  - vm_compute. reflexivity.
Defined.

Lemma extract_unknown_mode_aborts_witness :
  fst (extract_neuro_features stub_externals 2 "ecg" "stress" "time" "p01" "scenario"
         "mode" example_modes "plots" "ECG" true
         (Many ([drive_a] ++ drive_unknown_mode :: [drive_b])) empty_world)
  = Err (KeyError (SStr "7")).
Proof.
  erewrite (extract_unknown_mode_aborts stub_externals 2 "ecg" "stress" "time" "p01"
              "scenario" "mode" example_modes "plots" "ECG" true
              [drive_a] drive_unknown_mode [drive_b] empty_world).
  - reflexivity.
  - vm_compute. reflexivity.
  - reflexivity.
  - reflexivity.
  - intros s [= <-]. vm_compute. reflexivity.
Defined.

Lemma extract_one_table_per_recording_witness :
  exists tables w',
    extract_neuro_features stub_externals 2 "ecg" "stress" "time" "p01" "scenario" "mode"
      example_modes "plots" "ECG" true (Many [drive_a; drive_b]) empty_world
    = (Ok tables, w')
    /\ length tables = 2%nat.
Proof.
  eexists. eexists. split; [vm_compute; reflexivity|].
  eapply (extract_one_table_per_recording stub_externals 2 "ecg" "stress" "time" "p01"
            "scenario" "mode" example_modes "plots" "ECG" true
            (Many [drive_a; drive_b]) empty_world).
  vm_compute. reflexivity.
Defined.

(** ** Properties of the resampler *)

Lemma assoc_remove_column_ne c k cols col :
  assoc k (remove_column c cols) = Some col -> k <> c.
Proof.
  intros H ->. induction cols as [|[k' v'] rest IH]; simpl in H; [discriminate|].
  destruct (String.eqb c k') eqn:E; simpl in H; [now apply IH|].
  rewrite E in H. now apply IH.
Qed.

Lemma dict_display_distinct {V} (p g v : string) (a b c : V) :
  p <> g -> p <> v -> g <> v ->
  dict_display [(p, a); (g, b); (v, c)] = [(p, a); (g, b); (v, c)].
Proof.
  intros Hpg Hpv Hgv. unfold dict_display. simpl.
  apply not_eq_sym in Hpg, Hpv, Hgv.
  apply String.eqb_neq in Hpg, Hpv, Hgv.
  rewrite Hpg. simpl. rewrite Hpv. simpl. now rewrite Hgv.
Qed.

(** X13.  Away from the label ["index"], and with the three columns present
    under distinct labels, the result has the timestamp column and the
    three aggregated columns and nothing else. *)
Lemma resample_dataframe_columns ext df ts v g p freq tcol cp cg cv labels groups mv :
  assoc ts (df_columns df) = Some tcol ->
  assoc p (remove_column ts (df_columns df)) = Some cp ->
  assoc g (remove_column ts (df_columns df)) = Some cg ->
  assoc v (remove_column ts (df_columns df)) = Some cv ->
  p <> g -> p <> v -> g <> v ->
  ts <> "index" -> p <> "index" -> g <> "index" -> v <> "index" ->
  resample_bins ext freq (LabelIndex (Some ts) tcol) = Ok (labels, groups) ->
  agg_mean groups cv = Ok mv ->
  fst (resample_dataframe ext df ts v g p freq)
    = Ok (mkDataFrame (RangeIndex (col_length labels))
            [(ts, labels); (p, agg_first groups cp); (g, agg_first groups cg); (v, mv)]).
Proof.
  intros Hts Hp Hg Hv Hpg Hpv Hgv Nts Np Ng Nv Hbins Hmean.
  pose proof (assoc_remove_column_ne _ _ _ _ Hp) as Pts.
  pose proof (assoc_remove_column_ne _ _ _ _ Hg) as Gts.
  pose proof (assoc_remove_column_ne _ _ _ _ Hv) as Vts.
  unfold resample_dataframe, set_index_inplace. rewrite Hts. simpl.
  unfold resample. simpl. rewrite Hbins. simpl.
  rewrite (dict_display_distinct p g v _ _ _ Hpg Hpv Hgv).
  unfold agg. simpl. rewrite Hp, Hg, Hv. simpl. rewrite Hmean. simpl.
  unfold reset_index, has_column. simpl.
  apply not_eq_sym in Pts, Gts, Vts.
  apply String.eqb_neq in Pts, Gts, Vts. rewrite Pts, Gts, Vts. simpl.
  unfold rename_columns. simpl.
  apply String.eqb_neq in Nts, Np, Ng, Nv. now rewrite Nts, Np, Ng, Nv.
Qed.

(** C3, at a recording whose value column is labelled ["index"].  The
    result lacks the value column: what was aggregated from it is returned
    under the label ["timestamp_col"], because the last step of the function
    renames every column labelled ["index"]. *)
Theorem resample_dataframe_index_label_clash :
  exists out,
    fst (resample_dataframe stub_externals trip "time" "index" "grp" "pid" "1s") = Ok out
    /\ column_names out = ["time"; "pid"; "grp"; "timestamp_col"]
    /\ has_column "index" out = false.
Proof.
  eexists. split; [vm_compute; reflexivity|]. split; reflexivity.
Qed.

(** C4.  The call changes the frame it is given: when the timestamp column
    is there, the caller's frame comes out indexed by that column, named
    after it, and without it among its columns, whether the rest of the call
    returns or raises. *)
Theorem resample_dataframe_reindexes_argument (ext : Externals) (df : DataFrame)
    (timestamp_col value_col group_col participant_col target_freq : string)
    (col : column) :
  assoc timestamp_col (df_columns df) = Some col ->
  snd (resample_dataframe ext df timestamp_col value_col group_col participant_col
         target_freq)
    = mkDataFrame (LabelIndex (Some timestamp_col) col)
        (remove_column timestamp_col (df_columns df)).
Proof.
  intros H. unfold resample_dataframe, set_index_inplace. now rewrite H.
Qed.

Lemma resample_dataframe_reindexes_argument_witness :
  df_index (snd (resample_dataframe stub_externals trip_speed "time" "speed" "grp" "pid" "1s"))
  = LabelIndex (Some "time")
      (TimeCol [Some 0%Z; Some 500000000%Z; Some 1000000000%Z; Some 1500000000%Z])
  /\ df_index trip_speed = RangeIndex 4.
Proof.
  split; [|reflexivity].
  rewrite (resample_dataframe_reindexes_argument stub_externals trip_speed "time" "speed"
             "grp" "pid" "1s"
             (TimeCol [Some 0%Z; Some 500000000%Z; Some 1000000000%Z; Some 1500000000%Z])).
  - reflexivity.
  - reflexivity.
Defined.

(** ** Further properties of the sampling-rate estimator *)

Lemma rmap_app {A B} (f : A -> result B) (xs ys : list A) :
  rmap f (xs ++ ys)
  = let* a := rmap f xs in let* b := rmap f ys in Ok (a ++ b).
Proof.
  induction xs as [|x xs IH]; simpl.
  - now destruct (rmap f ys).
  - destruct (f x) as [y|e]; simpl; [|reflexivity]. rewrite IH.
    destruct (rmap f xs) as [a|e]; simpl; [|reflexivity].
    now destruct (rmap f ys).
Qed.

Lemma get_sampling_rate_rmap dfs tc :
  get_sampling_rate dfs tc = rmap (sampling_rate_of tc) dfs.
Proof.
  unfold get_sampling_rate. rewrite get_sampling_rate_loop_rmap.
  now destruct (rmap (sampling_rate_of tc) dfs).
Qed.

Lemma rmap_sampling_rate_first_missing tc pre df post rates :
  has_column tc df = false ->
  rmap (sampling_rate_of tc) pre = Ok rates ->
  rmap (sampling_rate_of tc) (pre ++ df :: post)
  = Err (ValueError (missing_timestamp_message tc)).
Proof.
  intros Hdf Hpre. rewrite rmap_app, Hpre. simpl.
  unfold sampling_rate_of at 1. now rewrite Hdf.
Qed.

Lemma numeric_if_present_missing tc df :
  has_column tc df = false -> numeric_if_present tc df.
Proof.
  unfold has_column, numeric_if_present.
  destruct (assoc tc (df_columns df)); [discriminate | trivial].
Qed.

(** C7, as the code has it.  If a recording of the list has no timestamp
    column, [get_sampling_rate] raises: the result is an exception alone,
    never a list of rates.  The exception is the [ValueError] whose message
    names the column whenever the recordings before that one are processed
    without error, or each of them either lacks the column too or holds
    numbers in it; the recordings after it play no part. *)
Theorem get_sampling_rate_missing_column (tc : string) (pre : list DataFrame)
    (df : DataFrame) (post : list DataFrame) :
  has_column tc df = false ->
  (exists e, get_sampling_rate (pre ++ df :: post) tc = Err e)
  /\ ((exists rates, get_sampling_rate pre tc = Ok rates)
      \/ Forall (numeric_if_present tc) pre ->
      get_sampling_rate (pre ++ df :: post) tc
      = Err (ValueError ("Timestamp column '" +:+ tc +:+ "' not found in dataframe."))).
Proof.
  intros Hdf. rewrite !get_sampling_rate_rmap. split.
  - apply rmap_sampling_rate_aborts. apply Exists_app. right. now constructor.
  - intros [[rates Hpre] | Hnum].
    + exact (rmap_sampling_rate_first_missing tc pre df post rates Hdf Hpre).
    + replace (pre ++ df :: post) with ((pre ++ [df]) ++ post)
        by (now rewrite <- app_assoc).
      rewrite rmap_app, (rmap_sampling_rate_missing tc (pre ++ [df])); [reflexivity| |].
      * apply Forall_app. split; [exact Hnum|].
        constructor; [now apply numeric_if_present_missing | constructor].
      * apply Exists_app. right. now constructor.
Qed.

Lemma get_sampling_rate_missing_column_witness :
  has_column "time" drive_untimed = false
  /\ get_sampling_rate ([drive_a] ++ drive_untimed :: [drive_datetime]) "time"
     = Err (ValueError "Timestamp column 'time' not found in dataframe.").
Proof.
  split; [reflexivity|].
  apply (proj2 (get_sampling_rate_missing_column "time" [drive_a] drive_untimed
                  [drive_datetime] eq_refl)).
  right. repeat constructor.
Defined.

(** C7 as stated does not hold of every list: when a recording with
    datetime timestamps comes before the one that lacks the column, the
    call raises the [TypeError] of that earlier recording, not the
    [ValueError] that names the column. *)
Lemma get_sampling_rate_missing_column_not_first :
  has_column "time" drive_untimed = false
  /\ get_sampling_rate [drive_datetime; drive_untimed] "time" = Err TypeError
  /\ TypeError <> ValueError (missing_timestamp_message "time").
Proof. split; [reflexivity|]. split; [reflexivity | discriminate]. Qed.

(** C10, as the code has it.  A recording whose timestamp column holds
    numbers and has fewer than two rows does not make [get_sampling_rate]
    raise: the mean of its consecutive differences is NaN, and when the
    recordings before and after it are processed without error the call
    returns, with NaN as the rate at the position of that recording. *)
Theorem get_sampling_rate_short_recording (tc : string) (df : DataFrame)
    (ts : list num) (pre post : list DataFrame) (ra rb : list scalar) :
  float_column tc df ts ->
  (length ts < 2)%nat ->
  get_sampling_rate pre tc = Ok ra ->
  get_sampling_rate post tc = Ok rb ->
  nanmean (float_diff ts) = NaN
  /\ get_sampling_rate [df] tc = Ok [SFloat NaN]
  /\ get_sampling_rate (pre ++ df :: post) tc = Ok (ra ++ SFloat NaN :: rb).
Proof.
  intros Hdf Hlen Hpre Hpost.
  assert (Hone : sampling_rate_of tc df = Ok (SFloat NaN)).
  { rewrite (sampling_rate_of_float tc df ts Hdf). now rewrite rate_of_short. }
  split; [|split].
  - destruct ts as [|x [|y rest]]; simpl in *; try reflexivity; lia.
  - rewrite get_sampling_rate_rmap. simpl. now rewrite Hone.
  - rewrite get_sampling_rate_rmap in *. rewrite rmap_app, Hpre. simpl.
    now rewrite Hone, Hpost.
Qed.

Lemma get_sampling_rate_short_recording_witness :
  get_sampling_rate ([drive_a] ++ drive_short :: []) "time"
  = Ok ([SFloat (rate_of_timestamps (uniform_timestamps Qc_zero half 3))]
          ++ SFloat NaN :: []).
Proof.
  apply (get_sampling_rate_short_recording "time" drive_short [Fin Qc_zero]
           [drive_a] [] [SFloat (rate_of_timestamps (uniform_timestamps Qc_zero half 3))] []).
  - reflexivity.
  - simpl. lia.
  - apply (get_sampling_rate_float "time" [drive_a] [uniform_timestamps Qc_zero half 3]).
    repeat constructor.
  - reflexivity.
Defined.

(** C10 as stated does not hold of every short recording that has the
    timestamp column: on a single datetime the mean interval is NaT, and 1
    divided by NaT raises a [TypeError]. *)
Lemma get_sampling_rate_short_datetime_raises :
  has_column "time" drive_datetime_short = true
  /\ get_sampling_rate [drive_datetime_short] "time" = Err TypeError.
Proof. split; reflexivity. Qed.

(** X8.  The rates of a list made of two parts are the rates of the first part
    followed by those of the second; an exception raised on the first part
    is the exception of the whole, whatever the second part holds. *)
Theorem get_sampling_rate_app (xs ys : list DataFrame) (tc : string) :
  get_sampling_rate (xs ++ ys) tc
  = let* a := get_sampling_rate xs tc in
    let* b := get_sampling_rate ys tc in
    Ok (a ++ b).
Proof. rewrite !get_sampling_rate_rmap. apply rmap_app. Qed.

Lemma rmap_ok_length {A B} (f : A -> result B) (xs : list A) (ys : list B) :
  rmap f xs = Ok ys ->
  length ys = length xs /\ Forall2 (fun x y => f x = Ok y) xs ys.
Proof.
  revert ys. induction xs as [|x xs IH]; simpl; intros ys.
  - intros [= <-]. split; [reflexivity | constructor].
  - destruct (f x) as [y|] eqn:E; simpl; [|discriminate].
    destruct (rmap f xs) as [zs|]; simpl; [|discriminate].
    intros [= <-]. destruct (IH zs eq_refl) as [Hl Hall].
    split; [simpl; now rewrite Hl | now constructor].
Qed.

(** X9.  When the call returns, it returns as many rates as there are
    recordings, and every recording had the timestamp column. *)
Theorem get_sampling_rate_returns (dfs : list DataFrame) (tc : string)
    (rates : list scalar) :
  get_sampling_rate dfs tc = Ok rates ->
  length rates = length dfs
  /\ Forall (fun df => has_column tc df = true) dfs.
Proof.
  rewrite get_sampling_rate_rmap. intros H.
  destruct (rmap_ok_length _ _ _ H) as [Hl Hall]. split; [exact Hl|].
  clear H Hl. induction Hall as [|df r dfs rs Hdf _ IH]; constructor; [|exact IH].
  unfold sampling_rate_of in Hdf.
  destruct (has_column tc df); [reflexivity | discriminate].
Qed.

Lemma get_sampling_rate_returns_witness :
  get_sampling_rate [drive_a; drive_short] "time"
    = Ok [SFloat (rate_of_timestamps (uniform_timestamps Qc_zero half 3));
          SFloat (rate_of_timestamps [Fin Qc_zero])]
  /\ Forall (fun df => has_column "time" df = true) [drive_a; drive_short].
Proof.
  assert (H : get_sampling_rate [drive_a; drive_short] "time"
              = Ok [SFloat (rate_of_timestamps (uniform_timestamps Qc_zero half 3));
                    SFloat (rate_of_timestamps [Fin Qc_zero])]).
  { apply (get_sampling_rate_float "time" [drive_a; drive_short]
             [uniform_timestamps Qc_zero half 3; [Fin Qc_zero]]).
    repeat constructor. }
  split; [exact H|].
  exact (proj2 (get_sampling_rate_returns _ _ _ H)).
Defined.

Lemma last_cons_default {A} (rest : list A) (q x : A) :
  List.last (q :: rest) x = List.last rest q.
Proof.
  revert q x. induction rest as [|r rest IH]; intros q x; [reflexivity|].
  change (List.last (q :: r :: rest) x) with (List.last (r :: rest) x).
  now rewrite (IH r x), (IH r q).
Qed.

Lemma filter_present_diff_finite x rest :
  List.filter (fun v => negb (is_nan v)) (diff_from (Fin x) (map Fin rest))
  = diff_from (Fin x) (map Fin rest).
Proof.
  revert x. induction rest as [|q rest IH]; intros x; simpl; [reflexivity|].
  now rewrite IH.
Qed.

Lemma length_diff_from x rest : length (diff_from x rest) = length rest.
Proof.
  revert x. induction rest as [|q rest IH]; intros x; simpl; [reflexivity|].
  now rewrite IH.
Qed.

Lemma fold_fadd_diff_finite x rest a :
  fold_left fadd (diff_from (Fin x) (map Fin rest)) (Fin a)
  = Fin (a + (List.last rest x - x))%Qc.
Proof.
  revert x a. induction rest as [|q rest IH]; intros x a.
  - simpl. f_equal. ring.
  - change (fold_left fadd (diff_from (Fin x) (map Fin (q :: rest))) (Fin a))
      with (fold_left fadd (diff_from (Fin q) (map Fin rest))
              (Fin (a + (q + - x))%Qc)).
    rewrite IH. f_equal.
    rewrite last_cons_default. ring.
Qed.

Lemma mean_interval_finite x q rest :
  mean_interval (map Fin (x :: q :: rest))
  = Fin ((List.last (q :: rest) x - x) / Qc_of_nat (S (length rest)))%Qc.
Proof.
  unfold mean_interval, consecutive_differences.
  change (tail (map Fin (x :: q :: rest))) with (map Fin (q :: rest)).
  change (map Fin (x :: q :: rest)) with (Fin x :: map Fin (q :: rest)).
  rewrite <- diff_from_zip. unfold nanmean.
  rewrite filter_present_diff_finite.
  change (diff_from (Fin x) (map Fin (q :: rest)))
    with (fsub (Fin q) (Fin x) :: diff_from (Fin q) (map Fin rest)) at 1.
  cbv iota beta.
  rewrite length_diff_from, length_map. unfold fsum.
  rewrite fold_fadd_diff_finite.
  rewrite fdiv_finite by (apply Qc_of_nat_nonzero; simpl; lia).
  f_equal. f_equal. unfold Qc_zero. ring.
Qed.

(** X10.  With timestamps that are all finite, the rate depends on the first
    timestamp, the last one and their number alone: it is the number of
    intervals divided by the time between first and last, however the
    timestamps in between are spaced or ordered. *)
Theorem get_sampling_rate_endpoints (tc : string) (df : DataFrame)
    (x q : Qc) (rest : list Qc) :
  float_column tc df (map Fin (x :: q :: rest)) ->
  List.last (q :: rest) x <> x ->
  get_sampling_rate [df] tc
  = Ok [SFloat (Fin (Qc_of_nat (S (length rest)) / (List.last (q :: rest) x - x))%Qc)].
Proof.
  intros Hdf Hne.
  rewrite (get_sampling_rate_float tc [df] [map Fin (x :: q :: rest)])
    by (constructor; [exact Hdf | constructor]).
  change (map (fun ts => SFloat (rate_of_timestamps ts)) [map Fin (x :: q :: rest)])
    with [SFloat (rate_of_timestamps (map Fin (x :: q :: rest)))].
  unfold rate_of_timestamps. rewrite mean_interval_finite.
  set (d := (List.last (q :: rest) x - x)%Qc).
  set (n := Qc_of_nat (S (length rest))).
  assert (Hn : n <> Q2Qc 0) by (apply Qc_of_nat_nonzero; lia).
  assert (Hd : d <> Q2Qc 0).
  { intros H0. apply Hne. unfold d in H0.
    replace (List.last (q :: rest) x)
      with ((List.last (q :: rest) x - x) + x)%Qc by ring.
    rewrite H0. ring. }
  assert (Hdn : (d / n)%Qc <> Qc_zero).
  { intros H0. apply Hd. replace d with ((d / n) * n)%Qc by (field; exact Hn).
    rewrite H0. unfold Qc_zero. ring. }
  rewrite (fdiv_finite _ _ Hdn).
  assert (E : (Qc_one / (d / n) = n / d)%Qc) by (unfold Qc_one; field; now split).
  now rewrite E.
Qed.

Lemma get_sampling_rate_endpoints_witness :
  get_sampling_rate [drive_irregular] "time"
  = Ok [SFloat (Fin (Qc_of_nat 2 / (Q2Qc 3 - Qc_zero))%Qc)].
Proof.
  apply (get_sampling_rate_endpoints "time" drive_irregular Qc_zero half [Q2Qc 3]).
  - reflexivity.
  - intros H. apply (f_equal this) in H. vm_compute in H. discriminate.
Defined.

(** In the exact arithmetic of the model, a last timestamp equal to the
    first makes the mean interval zero. *)
Lemma rate_of_zero_interval (x q : Qc) (rest : list Qc) :
  List.last (q :: rest) x = x ->
  rate_of_timestamps (map Fin (x :: q :: rest)) = PInf.
Proof.
  intros Heq. unfold rate_of_timestamps. rewrite mean_interval_finite, Heq.
  replace ((x - x) / Qc_of_nat (S (length rest)))%Qc with Qc_zero.
  - reflexivity.
  - unfold Qc_zero, Qcdiv. ring.
Qed.

Lemma last_repeat {A} (x : A) (n : nat) : List.last (repeat x n) x = x.
Proof.
  induction n as [|n IH]; [reflexivity|].
  change (repeat x (S n)) with (x :: repeat x n). now rewrite last_cons_default.
Qed.

(** X11.  When the timestamp column is constant (the same finite timestamp
    in every row, two rows or more), every difference is zero, the mean
    interval is zero and the rate returned is positive infinity: the
    division does not raise. *)
Theorem get_sampling_rate_constant_timestamps (tc : string) (df : DataFrame)
    (x : Qc) (n : nat) :
  float_column tc df (repeat (Fin x) (S (S n))) ->
  get_sampling_rate [df] tc = Ok [SFloat PInf].
Proof.
  intros Hdf.
  rewrite (get_sampling_rate_float tc [df] [repeat (Fin x) (S (S n))])
    by (constructor; [exact Hdf | constructor]).
  change (map (fun ts => SFloat (rate_of_timestamps ts)) [repeat (Fin x) (S (S n))])
    with [SFloat (rate_of_timestamps (repeat (Fin x) (S (S n))))].
  replace (repeat (Fin x) (S (S n))) with (map Fin (x :: x :: repeat x n)).
  - rewrite rate_of_zero_interval; [reflexivity|].
    change (x :: repeat x n) with (repeat x (S n)). apply last_repeat.
  - change (x :: x :: repeat x n) with (repeat x (S (S n))). apply map_repeat.
Qed.

Lemma get_sampling_rate_constant_timestamps_witness :
  get_sampling_rate [drive_stalled] "time" = Ok [SFloat PInf].
Proof.
  apply (get_sampling_rate_constant_timestamps "time" drive_stalled Qc_one 1).
  reflexivity.
Defined.

(** ** Further properties of the resampler *)

Lemma assoc_remove_column_same c cols : assoc c (remove_column c cols) = None.
Proof.
  induction cols as [|[k col] rest IH]; simpl; [reflexivity|].
  destruct (String.eqb c k) eqn:E; simpl; [exact IH|]. now rewrite E.
Qed.

Lemma assoc_remove_column_none c k cols :
  assoc k cols = None -> assoc k (remove_column c cols) = None.
Proof.
  induction cols as [|[k' col] rest IH]; simpl; [reflexivity|].
  destruct (String.eqb k k') eqn:E; [discriminate|]. intros H.
  destruct (String.eqb c k'); simpl; [now apply IH|]. rewrite E. now apply IH.
Qed.

Lemma resample_dataframe_missing_timestamp ext df ts v g p freq :
  assoc ts (df_columns df) = None ->
  exists k, resample_dataframe ext df ts v g p freq = (Err (KeyError k), df).
Proof.
  intros H. unfold resample_dataframe, set_index_inplace. rewrite H. eauto.
Qed.

Lemma resample_dataframe_reindexes_argument_aux ext df ts v g p freq col :
  assoc ts (df_columns df) = Some col ->
  snd (resample_dataframe ext df ts v g p freq)
  = mkDataFrame (LabelIndex (Some ts) col) (remove_column ts (df_columns df)).
Proof.
  intros H. unfold resample_dataframe, set_index_inplace. now rewrite H.
Qed.

(** X12.  The frame a call has been given cannot be given to a second call: the
    first call has moved the timestamp column into the index, so the second
    one raises a [KeyError] when it looks for that column, and leaves the
    frame as the first call left it. *)
Theorem resample_dataframe_twice (ext : Externals) (df : DataFrame)
    (timestamp_col v g p freq v' g' p' freq' : string) (col : column) :
  assoc timestamp_col (df_columns df) = Some col ->
  exists k,
    resample_dataframe ext (snd (resample_dataframe ext df timestamp_col v g p freq))
      timestamp_col v' g' p' freq'
    = (Err (KeyError k), snd (resample_dataframe ext df timestamp_col v g p freq)).
Proof.
  intros H. rewrite (resample_dataframe_reindexes_argument_aux ext df timestamp_col v g p freq col H).
  apply resample_dataframe_missing_timestamp. simpl.
  apply assoc_remove_column_same.
Qed.

Lemma resample_dataframe_twice_witness :
  exists k,
    resample_dataframe stub_externals
      (snd (resample_dataframe stub_externals trip_speed "time" "speed" "grp" "pid" "1s"))
      "time" "speed" "grp" "pid" "1s"
    = (Err (KeyError k),
       snd (resample_dataframe stub_externals trip_speed "time" "speed" "grp" "pid" "1s")).
Proof.
  apply (resample_dataframe_twice stub_externals trip_speed "time" "speed" "grp" "pid" "1s"
           "speed" "grp" "pid" "1s"
           (TimeCol [Some 0%Z; Some 500000000%Z; Some 1000000000%Z; Some 1500000000%Z])).
  reflexivity.
Defined.

Lemma resample_dataframe_columns_witness :
  exists out,
    fst (resample_dataframe stub_externals trip_speed "time" "speed" "grp" "pid" "1s") = Ok out
    /\ column_names out = ["time"; "pid"; "grp"; "speed"]
    /\ df_index out = RangeIndex 2.
Proof.
  eexists. split.
  - eapply (resample_dataframe_columns stub_externals trip_speed "time" "speed" "grp" "pid" "1s").
    + reflexivity.
    + reflexivity.
    + reflexivity.
    + reflexivity.
    + discriminate.
    + discriminate.
    + discriminate.
    + discriminate.
    + discriminate.
    + discriminate.
    + discriminate.
    + vm_compute. reflexivity.
    + vm_compute. reflexivity.
  - split; reflexivity.
Defined.

Lemma In_dict_set {V} (k : string) (v : V) (d : list (string * V)) :
  In (k, v) (dict_set k v d).
Proof.
  induction d as [|[k' v'] rest IH]; simpl; [now left|].
  destruct (String.eqb k k') eqn:E.
  - apply String.eqb_eq in E. subst. now left.
  - right. exact IH.
Qed.

Lemma agg_missing_key r spec k how :
  In (k, how) spec -> assoc k (rs_columns r) = None ->
  exists e, agg r spec = Err (KeyError e).
Proof.
  intros Hin Hk. unfold agg.
  destruct (List.filter _ spec) as [|m ms] eqn:E; [|eauto].
  exfalso.
  assert (Hf : In (k, how)
                 (List.filter (fun kv : string * aggfunc =>
                                 match assoc (fst kv) (rs_columns r) with
                                 | Some _ => false
                                 | None => true
                                 end) spec)).
  { apply filter_In. split; [exact Hin|]. simpl. now rewrite Hk. }
  rewrite E in Hf. inversion Hf.
Qed.

(** X15.  When the value column is not a column of the frame once the timestamp
    column has become the index (it is not in the frame, or it is the
    timestamp column itself), the aggregation raises and the call returns
    no frame. *)
Theorem resample_dataframe_missing_value_column (ext : Externals) (df : DataFrame)
    (timestamp_col value_col group_col participant_col target_freq : string)
    (tcol : column) (bins : column * list (list nat)) :
  assoc timestamp_col (df_columns df) = Some tcol ->
  value_col = timestamp_col \/ assoc value_col (df_columns df) = None ->
  resample_bins ext target_freq (LabelIndex (Some timestamp_col) tcol) = Ok bins ->
  exists e,
    fst (resample_dataframe ext df timestamp_col value_col group_col participant_col
           target_freq) = Err e.
Proof.
  intros Hts Hv Hbins.
  assert (Hnone : assoc value_col (remove_column timestamp_col (df_columns df)) = None).
  { destruct Hv as [-> | Hv]; [apply assoc_remove_column_same|].
    now apply assoc_remove_column_none. }
  unfold resample_dataframe, set_index_inplace. rewrite Hts. simpl.
  unfold resample. simpl. rewrite Hbins. simpl.
  destruct (agg_missing_key
              (mkResampler (Some timestamp_col) (fst bins) (snd bins)
                 (remove_column timestamp_col (df_columns df)))
              (dict_display [(participant_col, AggFirst); (group_col, AggFirst);
                             (value_col, AggMean)])
              value_col AggMean) as [e He].
  - unfold dict_display. simpl. apply In_dict_set.
  - exact Hnone.
  - rewrite He. simpl. eauto.
Qed.

Lemma resample_dataframe_missing_value_column_witness :
  exists e,
    fst (resample_dataframe stub_externals trip_speed "time" "time" "grp" "pid" "1s")
    = Err e.
Proof.
  eapply (resample_dataframe_missing_value_column stub_externals trip_speed
            "time" "time" "grp" "pid" "1s").
  - reflexivity.
  - left. reflexivity.
  - vm_compute. reflexivity.
Defined.

Lemma dict_display_repeated {V} (p g : string) (a b c : V) :
  p <> g ->
  dict_display [(p, a); (g, b); (g, c)] = [(p, a); (g, c)].
Proof.
  intros Hpg. unfold dict_display. simpl.
  apply not_eq_sym in Hpg. apply String.eqb_neq in Hpg.
  rewrite Hpg. simpl. rewrite Hpg. simpl. now rewrite String.eqb_refl.
Qed.

(** X14.  When the same label is passed as group column and as value column, the
    result has one column under that label, and it holds the means: the
    later entry of the aggregation dictionary replaces the earlier one, so
    no first value of the group column is returned. *)
Theorem resample_dataframe_group_is_value (ext : Externals) (df : DataFrame)
    (timestamp_col g p target_freq : string) (tcol cp cg labels : column)
    (groups : list (list nat)) (mg : column) :
  assoc timestamp_col (df_columns df) = Some tcol ->
  assoc p (remove_column timestamp_col (df_columns df)) = Some cp ->
  assoc g (remove_column timestamp_col (df_columns df)) = Some cg ->
  p <> g ->
  timestamp_col <> "index" -> p <> "index" -> g <> "index" ->
  resample_bins ext target_freq (LabelIndex (Some timestamp_col) tcol)
    = Ok (labels, groups) ->
  agg_mean groups cg = Ok mg ->
  fst (resample_dataframe ext df timestamp_col g g p target_freq)
  = Ok (mkDataFrame (RangeIndex (col_length labels))
          [(timestamp_col, labels); (p, agg_first groups cp); (g, mg)]).
Proof.
  intros Hts Hp Hg Hpg Nts Np Ng Hbins Hmean.
  pose proof (assoc_remove_column_ne _ _ _ _ Hp) as Pts.
  pose proof (assoc_remove_column_ne _ _ _ _ Hg) as Gts.
  unfold resample_dataframe, set_index_inplace. rewrite Hts. simpl.
  unfold resample. simpl. rewrite Hbins. simpl.
  rewrite (dict_display_repeated p g _ _ _ Hpg).
  unfold agg. simpl. rewrite Hp, Hg. simpl. rewrite Hmean. simpl.
  unfold reset_index, has_column. simpl.
  apply not_eq_sym in Pts, Gts.
  apply String.eqb_neq in Pts, Gts. rewrite Pts, Gts. simpl.
  unfold rename_columns. simpl.
  apply String.eqb_neq in Nts, Np, Ng. now rewrite Nts, Np, Ng.
Qed.

Lemma resample_dataframe_group_is_value_witness :
  exists out,
    fst (resample_dataframe stub_externals trip_speed "time" "speed" "speed" "pid" "1s")
    = Ok out
    /\ column_names out = ["time"; "pid"; "speed"].
Proof.
  eexists. split.
  - eapply (resample_dataframe_group_is_value stub_externals trip_speed
              "time" "speed" "pid" "1s").
    + reflexivity.
    + reflexivity.
    + reflexivity.
    + discriminate.
    + discriminate.
    + discriminate.
    + discriminate.
    + vm_compute. reflexivity.
    + vm_compute. reflexivity.
  - reflexivity.
Defined.

(** ** Further properties of the feature extractor *)

Lemma logged_world_nil w : logged_world [] w = w.
Proof. destruct w. unfold logged_world. simpl. now rewrite app_nil_r. Qed.

Lemma logged_world_app a b w :
  logged_world b (logged_world a w) = logged_world (a ++ b) w.
Proof. unfold logged_world. simpl. now rewrite map_app, app_assoc. Qed.

Lemma for_each_log msgs w :
  for_each (fun warning => logging_warning ("Neurokit2: " +:+ warning)) msgs w
  = (Ok tt, logged_world msgs w).
Proof.
  revert w. induction msgs as [|m msgs IH]; intros w.
  - simpl. unfold ret. now rewrite logged_world_nil.
  - simpl. unfold bind, logging_warning. rewrite IH. f_equal.
    unfold logged_world. simpl. now rewrite <- app_assoc.
Qed.

Section ExtractEffects.

Variable ext : Externals.
Variable sr_hz : Z.
Variables signal_col target_col time_col participant scenario_col mode_col : string.
Variable modes : gmap string string.
Variables graph_path signal_type : string.
Variable offline : bool.

Local Abbreviation step := (process_recording ext sr_hz signal_col target_col time_col
                              participant scenario_col mode_col modes graph_path
                              signal_type offline).
Local Abbreviation loop := (extract_loop ext sr_hz signal_col target_col time_col
                              participant scenario_col mode_col modes graph_path
                              signal_type offline).
Local Abbreviation dispatch := (run_processor ext sr_hz signal_type offline).
Local Abbreviation extract := (extract_neuro_features ext sr_hz signal_col target_col
                                 time_col participant scenario_col mode_col modes
                                 graph_path signal_type offline).
Local Abbreviation image_path :=
  (fun sid mode => path_join graph_path (plot_filename ext participant signal_type sid mode)).

Lemma save_plot_world sid mode w :
  save_plot ext participant graph_path signal_type sid mode w
  = (Ok tt, saved_world (subject_dir participant graph_path) (image_path sid mode) w).
Proof.
  unfold save_plot, bind, path_exists, makedirs, savefig, ret, saved_world.
  case_bool_decide as Hin; simpl; [|reflexivity].
  do 2 f_equal. set_solver.
Qed.

Lemma run_processor_world signal w r w' :
  dispatch signal w = (r, w') ->
  w_dirs w' = w_dirs w /\ w_files w' = w_files w /\ w_log w' = w_log w
  /\ (offline = false -> w' = w)
  /\ (forall x, r = Ok x -> offline = true -> w_drawn w' = S (w_drawn w)).
Proof.
  unfold run_processor, bind, lift, draw, ret, raise.
  destruct (String.eqb signal_type "ECG").
  - destruct (ecg_process ext signal sr_hz) as [[[np info] caught]|].
    + destruct offline.
      * destruct (ecg_plot ext np info sr_hz); intros [= <- <-]; simpl;
          repeat split; try discriminate; auto.
      * intros [= <- <-]. repeat split; auto. discriminate.
    + intros [= <- <-]. repeat split; auto. discriminate.
  - destruct (String.eqb signal_type "EDA").
    + destruct (eda_process ext signal sr_hz) as [[[np info] caught]|].
      * destruct offline.
        -- destruct (eda_plot ext np sr_hz); intros [= <- <-]; simpl;
             repeat split; try discriminate; auto.
        -- intros [= <- <-]. repeat split; auto. discriminate.
      * intros [= <- <-]. repeat split; auto. discriminate.
    + intros [= <- <-]. repeat split; auto. discriminate.
Qed.

Lemma run_processor_result signal w1 w2 :
  fst (dispatch signal w1) = fst (dispatch signal w2).
Proof.
  unfold run_processor, bind, lift, draw, ret, raise.
  destruct (String.eqb signal_type "ECG").
  - destruct (ecg_process ext signal sr_hz) as [[[np info] caught]|]; [|reflexivity].
    destruct offline; [|reflexivity].
    now destruct (ecg_plot ext np info sr_hz).
  - destruct (String.eqb signal_type "EDA"); [|reflexivity].
    destruct (eda_process ext signal sr_hz) as [[[np info] caught]|]; [|reflexivity].
    destruct offline; [|reflexivity].
    now destruct (eda_plot ext np sr_hz).
Qed.

(** The body of the loop, step by step. *)
Lemma process_recording_eq df w :
  step df w =
  match (let* s := getitem df scenario_col in iloc0 s) with
  | Err e => (Err e, w)
  | Ok sid =>
      match (let* s := getitem df mode_col in
             let* code := iloc0 s in dict_getitem modes code) with
      | Err e => (Err e, w)
      | Ok mode =>
          match getitem df signal_col with
          | Err e => (Err e, w)
          | Ok signal =>
              match dispatch signal w with
              | (Err e, w1) => (Err e, w1)
              | (Ok r, w1) =>
                  let w2 := if offline
                            then saved_world (subject_dir participant graph_path)
                                   (image_path sid mode) w1
                            else w1 in
                  match (let* part := loc_columns df [time_col; scenario_col;
                                                      mode_col; target_col] in
                         concat_columns ext part
                           (prefix_columns (fst r) (signal_type +:+ "_"))) with
                  | Err e => (Err e, w2)
                  | Ok table => (Ok table, logged_world (snd r) w2)
                  end
              end
          end
      end
  end.
Proof.
  unfold process_recording, bind, lift.
  destruct (let* s := getitem df scenario_col in iloc0 s) as [sid|]; [|reflexivity].
  destruct (let* s := getitem df mode_col in
            let* code := iloc0 s in dict_getitem modes code) as [mode|]; [|reflexivity].
  destruct (getitem df signal_col) as [signal|]; [|reflexivity].
  destruct (dispatch signal w) as [[r|] w1]; [|reflexivity].
  destruct offline.
  - rewrite save_plot_world.
    destruct (loc_columns df [time_col; scenario_col; mode_col; target_col])
      as [part|]; [|reflexivity]. simpl.
    destruct (concat_columns ext part (prefix_columns (fst r) (signal_type +:+ "_")));
      [|reflexivity].
    now rewrite for_each_log.
  - unfold ret at 1.
    destruct (loc_columns df [time_col; scenario_col; mode_col; target_col])
      as [part|]; [|reflexivity]. simpl.
    destruct (concat_columns ext part (prefix_columns (fst r) (signal_type +:+ "_")));
      [|reflexivity].
    now rewrite for_each_log.
Qed.

Lemma process_recording_log df w :
  exists msgs,
    w_log (snd (step df w)) = w_log w ++ map (String.append "Neurokit2: ") msgs
    /\ (offline = false -> snd (step df w) = logged_world msgs w).
Proof.
  rewrite process_recording_eq.
  destruct (let* s := getitem df scenario_col in iloc0 s) as [sid|];
    [|exists []; simpl; rewrite app_nil_r; split; [reflexivity|];
      intros _; now rewrite logged_world_nil].
  destruct (let* s := getitem df mode_col in
            let* code := iloc0 s in dict_getitem modes code) as [mode|];
    [|exists []; simpl; rewrite app_nil_r; split; [reflexivity|];
      intros _; now rewrite logged_world_nil].
  destruct (getitem df signal_col) as [signal|];
    [|exists []; simpl; rewrite app_nil_r; split; [reflexivity|];
      intros _; now rewrite logged_world_nil].
  destruct (dispatch signal w) as [[r|e] w1] eqn:Ed;
    destruct (run_processor_world _ _ _ _ Ed) as (_ & _ & Hlog & Hoff & _).
  - cbv zeta.
    destruct (let* part := loc_columns df [time_col; scenario_col; mode_col; target_col] in
              concat_columns ext part (prefix_columns (fst r) (signal_type +:+ "_"))).
    + exists (snd r). split.
      * destruct offline; simpl; now rewrite Hlog.
      * intros Hf. rewrite Hf. now rewrite (Hoff Hf).
    + exists []. simpl. rewrite app_nil_r. split.
      * destruct offline; simpl; exact Hlog.
      * intros Hf. rewrite Hf. now rewrite (Hoff Hf), logged_world_nil.
  - exists []. simpl. rewrite app_nil_r. split; [exact Hlog|].
    intros Hf. now rewrite (Hoff Hf), logged_world_nil.
Qed.

Lemma extract_loop_log dfs acc w :
  exists msgs,
    w_log (snd (loop dfs acc w)) = w_log w ++ map (String.append "Neurokit2: ") msgs
    /\ (offline = false -> snd (loop dfs acc w) = logged_world msgs w).
Proof.
  revert acc w. induction dfs as [|df rest IH]; intros acc w.
  - exists []. simpl. rewrite app_nil_r. split; [reflexivity|].
    intros _. now rewrite logged_world_nil.
  - simpl. unfold bind.
    destruct (process_recording_log df w) as (m1 & Hlog1 & Hoff1).
    destruct (step df w) as [[table|e] w1]; simpl in Hlog1, Hoff1.
    + destruct (IH (acc ++ [table]) w1) as (m2 & Hlog2 & Hoff2).
      exists (m1 ++ m2). split.
      * now rewrite Hlog2, Hlog1, map_app, app_assoc.
      * intros Hf. now rewrite (Hoff2 Hf), (Hoff1 Hf), logged_world_app.
    + exists m1. split; [exact Hlog1 | exact Hoff1].
Qed.

(** X3.  Whatever the call does and however it ends, the log only grows, and
    every record it gains starts with ["Neurokit2: "]. *)
Theorem extract_logs_prefixed (dfs : recordings) (w : World) :
  exists msgs,
    w_log (snd (extract dfs w)) = w_log w ++ map (String.append "Neurokit2: ") msgs.
Proof.
  unfold extract_neuro_features.
  destruct (extract_loop_log (as_list dfs) [] w) as (msgs & H & _). eauto.
Qed.

Lemma process_recording_result df w1 w2 : fst (step df w1) = fst (step df w2).
Proof.
  rewrite !process_recording_eq.
  destruct (let* s := getitem df scenario_col in iloc0 s) as [sid|]; [|reflexivity].
  destruct (let* s := getitem df mode_col in
            let* code := iloc0 s in dict_getitem modes code) as [mode|]; [|reflexivity].
  destruct (getitem df signal_col) as [signal|]; [|reflexivity].
  pose proof (run_processor_result signal w1 w2) as Hr.
  destruct (dispatch signal w1) as [[r1|e1] v1];
    destruct (dispatch signal w2) as [[r2|e2] v2]; simpl in Hr; try discriminate.
  - injection Hr as ->. cbv zeta.
    now destruct (let* part := loc_columns df [time_col; scenario_col; mode_col; target_col] in
                  concat_columns ext part (prefix_columns (fst r2) (signal_type +:+ "_"))).
  - simpl. now injection Hr as ->.
Qed.

Lemma extract_loop_result dfs acc w1 w2 :
  fst (loop dfs acc w1) = fst (loop dfs acc w2).
Proof.
  revert acc w1 w2. induction dfs as [|df rest IH]; intros acc w1 w2; [reflexivity|].
  simpl. unfold bind.
  pose proof (process_recording_result df w1 w2) as Hr.
  destruct (step df w1) as [[t1|e1] v1]; destruct (step df w2) as [[t2|e2] v2];
    simpl in Hr; try discriminate.
  - injection Hr as ->. apply IH.
  - simpl. now injection Hr as ->.
Qed.

(** What the call returns or raises does not depend on the world it starts
    in: not on the directories that exist, nor on what has been saved,
    drawn or logged before. *)
Theorem extract_result_independent_of_world (dfs : recordings) (w1 w2 : World) :
  fst (extract dfs w1) = fst (extract dfs w2).
Proof. unfold extract_neuro_features. apply extract_loop_result. Qed.

Lemma extract_loop_acc dfs acc w :
  loop dfs acc w
  = (match fst (loop dfs [] w) with
     | Ok tables => Ok (acc ++ tables)
     | Err e => Err e
     end, snd (loop dfs [] w)).
Proof.
  revert acc w. induction dfs as [|df rest IH]; intros acc w.
  - simpl. unfold ret. simpl. now rewrite app_nil_r.
  - simpl. unfold bind. destruct (step df w) as [[table|e] w1]; [|reflexivity].
    rewrite (IH (acc ++ [table])), (IH ([] ++ [table])). simpl.
    destruct (fst (loop rest [] w1)); [|reflexivity].
    now rewrite <- app_assoc.
Qed.

(** X4.  A batch made of two parts is processed as the first part and then the
    second, in the world the first part leaves: the tables are those of the
    first part followed by those of the second, and an exception raised on
    the second part discards the tables of the first. *)
Theorem extract_app (xs ys : list DataFrame) (w : World)
    (tables : list DataFrame) (w1 : World) :
  extract (Many xs) w = (Ok tables, w1) ->
  extract (Many (xs ++ ys)) w
  = (match fst (extract (Many ys) w1) with
     | Ok more => Ok (tables ++ more)
     | Err e => Err e
     end, snd (extract (Many ys) w1)).
Proof.
  unfold extract_neuro_features. simpl. intros H.
  rewrite extract_loop_app, H. apply extract_loop_acc.
Qed.

Lemma iloc0_empty ix col : col_length col = 0%nat -> iloc0 (mkSeries ix col) = Err IndexError.
Proof.
  unfold iloc0. simpl.
  destruct col as [[|x xs]|[|x xs]|[|x xs]|[|x xs]]; simpl; intros H;
    try reflexivity; discriminate.
Qed.

(** X5.  A recording without rows makes the call raise an [IndexError] when its
    first scenario cell is read; nothing has been done for it by then, and
    the recordings after it are not processed. *)
Theorem extract_empty_recording (df : DataFrame) (rest : list DataFrame) (w : World)
    (col : column) :
  assoc scenario_col (df_columns df) = Some col ->
  col_length col = 0%nat ->
  extract (Many (df :: rest)) w = (Err IndexError, w).
Proof.
  intros Hcol Hlen. unfold extract_neuro_features. simpl. unfold bind.
  rewrite process_recording_eq. unfold getitem at 1. rewrite Hcol. simpl.
  now rewrite (iloc0_empty _ _ Hlen).
Qed.

Lemma read_first_cell_column df c x :
  (let* s := getitem df c in iloc0 s) = Ok x ->
  exists col, assoc c (df_columns df) = Some col.
Proof.
  unfold getitem. destruct (assoc c (df_columns df)) as [col|]; [eauto | discriminate].
Qed.

(** X6.  A recording that lacks the target column is found out late: the
    [KeyError] for that column is raised after the external processor has
    run, and, in offline mode, after the image of the recording has been
    saved; the warnings caught for the recording are not logged. *)
Theorem extract_missing_target_column (df : DataFrame) (w : World)
    (sid : scalar) (mode : string) (signal : Series)
    (r : DataFrame * list string) (w1 : World) (c_time : column) :
  (let* s := getitem df scenario_col in iloc0 s) = Ok sid ->
  (let* s := getitem df mode_col in
   let* code := iloc0 s in dict_getitem modes code) = Ok mode ->
  getitem df signal_col = Ok signal ->
  dispatch signal w = (Ok r, w1) ->
  assoc time_col (df_columns df) = Some c_time ->
  assoc target_col (df_columns df) = None ->
  exists k w',
    extract (Single df) w = (Err (KeyError k), w')
    /\ w_log w' = w_log w
    /\ w_files w' = if offline then w_files w ++ [image_path sid mode] else w_files w.
Proof.
  intros Hsid Hmode Hsig Hd Htime Htarget.
  destruct (read_first_cell_column _ _ _ Hsid) as [c_scen Hscen].
  assert (exists c_mode, assoc mode_col (df_columns df) = Some c_mode) as [c_mode Hmc].
  { unfold getitem in Hmode.
    destruct (assoc mode_col (df_columns df)) as [c|]; [eauto | discriminate]. }
  destruct (run_processor_world _ _ _ _ Hd) as (_ & Hfiles & Hlog & _ & _).
  unfold extract_neuro_features. simpl. unfold bind.
  rewrite process_recording_eq, Hsid, Hmode, Hsig, Hd. cbv zeta.
  unfold loc_columns. simpl. rewrite Htime, Hscen, Hmc, Htarget. simpl.
  eexists. eexists. split; [reflexivity|]. split.
  - destruct offline; simpl; exact Hlog.
  - destruct offline; simpl; now rewrite Hfiles.
Qed.



End ExtractEffects.

(** X1.  Outside offline mode the call touches nothing but the log: no
    directory is made, no image is saved and nothing is drawn, whether the
    call returns or raises. *)
Theorem extract_online_only_logs (ext : Externals) (sr_hz : Z)
    (signal_col target_col time_col participant scenario_col mode_col : string)
    (modes : gmap string string) (graph_path signal_type : string)
    (dfs : recordings) (w : World) :
  exists msgs,
    snd (extract_neuro_features ext sr_hz signal_col target_col time_col participant
           scenario_col mode_col modes graph_path signal_type false dfs w)
    = mkWorld (w_dirs w) (w_files w) (w_drawn w)
        (w_log w ++ map (String.append "Neurokit2: ") msgs).
Proof.
  unfold extract_neuro_features.
  destruct (extract_loop_log ext sr_hz signal_col target_col time_col participant
              scenario_col mode_col modes graph_path signal_type false (as_list dfs) [] w)
    as (msgs & _ & H).
  exists msgs. exact (H eq_refl).
Qed.



(** X7.  A recording that has the four context columns, a first scenario cell
    and a known first mode code, and for which the ECG processor returns a
    frame indexed as the recording is, gives outside offline mode a list of
    one table: the context columns of the recording followed by the
    processor's columns under their prefixed labels; the warnings the
    processor emitted are logged, in order. *)
Theorem extract_single_ecg (ext : Externals) (sr_hz : Z)
    (signal_col target_col time_col participant scenario_col mode_col : string)
    (modes : gmap string string) (graph_path : string) (df : DataFrame) (w : World)
    (sid : scalar) (mode : string) (signal : Series)
    (np : DataFrame) (info : ProcessorInfo ext) (caught : list string)
    (c_time c_scenario c_mode c_target : column) :
  (let* s := getitem df scenario_col in iloc0 s) = Ok sid ->
  (let* s := getitem df mode_col in
   let* code := iloc0 s in dict_getitem modes code) = Ok mode ->
  getitem df signal_col = Ok signal ->
  ecg_process ext signal sr_hz = Ok (np, info, caught) ->
  assoc time_col (df_columns df) = Some c_time ->
  assoc scenario_col (df_columns df) = Some c_scenario ->
  assoc mode_col (df_columns df) = Some c_mode ->
  assoc target_col (df_columns df) = Some c_target ->
  df_index np = df_index df ->
  extract_neuro_features ext sr_hz signal_col target_col time_col participant
    scenario_col mode_col modes graph_path "ECG" false (Single df) w
  = (Ok [mkDataFrame (df_index df)
           ([(time_col, c_time); (scenario_col, c_scenario);
             (mode_col, c_mode); (target_col, c_target)]
              ++ map (fun nc : string * column => ("ECG_" +:+ fst nc, snd nc))
                   (df_columns np))],
     mkWorld (w_dirs w) (w_files w) (w_drawn w)
       (w_log w ++ map (String.append "Neurokit2: ") caught)).
Proof.
  intros Hsid Hmode Hsig Hproc Ht Hs Hm Hg Hix.
  unfold extract_neuro_features. simpl. unfold bind.
  rewrite process_recording_eq, Hsid, Hmode, Hsig.
  unfold run_processor. simpl. unfold bind, lift. rewrite Hproc. simpl.
  unfold loc_columns. simpl. rewrite Ht, Hs, Hm, Hg. simpl.
  rewrite concat_columns_aligned by (simpl; now rewrite Hix).
  reflexivity.
Qed.

Lemma extract_single_ecg_witness :
  exists tables w',
    extract_neuro_features stub_externals 2 "ecg" "stress" "time" "p01" "scenario" "mode"
      example_modes "plots" "ECG" false (Single drive_a) empty_world = (Ok tables, w')
    /\ map column_names tables
       = [["time"; "scenario"; "mode"; "stress"; "ECG_Raw"; "ECG_Clean"]]
    /\ w_log w' = ["Neurokit2: too few peaks"].
Proof.
  eexists. eexists. split.
  - eapply (extract_single_ecg stub_externals 2 "ecg" "stress" "time" "p01" "scenario"
              "mode" example_modes "plots" drive_a empty_world).
    + reflexivity.
    + vm_compute. reflexivity.
    + reflexivity.
    + reflexivity.
    + reflexivity.
    + reflexivity.
    + reflexivity.
    + reflexivity.
    + reflexivity.
  - split; reflexivity.
Defined.

Lemma extract_app_witness :
  exists tables w1,
    extract_neuro_features stub_externals 2 "ecg" "stress" "time" "p01" "scenario" "mode"
      example_modes "plots" "ECG" true (Many [drive_a]) empty_world = (Ok tables, w1)
    /\ extract_neuro_features stub_externals 2 "ecg" "stress" "time" "p01" "scenario" "mode"
         example_modes "plots" "ECG" true (Many ([drive_a] ++ [drive_b])) empty_world
       = (match fst (extract_neuro_features stub_externals 2 "ecg" "stress" "time" "p01"
                       "scenario" "mode" example_modes "plots" "ECG" true
                       (Many [drive_b]) w1) with
          | Ok more => Ok (tables ++ more)
          | Err e => Err e
          end,
          snd (extract_neuro_features stub_externals 2 "ecg" "stress" "time" "p01"
                 "scenario" "mode" example_modes "plots" "ECG" true (Many [drive_b]) w1)).
Proof.
  eexists. eexists. split; [vm_compute; reflexivity|].
  apply (extract_app stub_externals 2 "ecg" "stress" "time" "p01" "scenario" "mode"
           example_modes "plots" "ECG" true [drive_a] [drive_b] empty_world).
  vm_compute. reflexivity.
Defined.

Lemma extract_empty_recording_witness :
  extract_neuro_features stub_externals 2 "ecg" "stress" "time" "p01" "scenario" "mode"
    example_modes "plots" "ECG" true (Many [drive_empty; drive_a]) empty_world
  = (Err IndexError, empty_world).
Proof.
  apply (extract_empty_recording stub_externals 2 "ecg" "stress" "time" "p01" "scenario"
           "mode" example_modes "plots" "ECG" true drive_empty [drive_a] empty_world
           (ObjCol [])).
  - reflexivity.
  - reflexivity.
Defined.

Lemma extract_missing_target_column_witness :
  exists k w',
    extract_neuro_features stub_externals 2 "ecg" "stress" "time" "p01" "scenario" "mode"
      example_modes "plots" "ECG" true (Single drive_no_target) empty_world
    = (Err (KeyError k), w')
    /\ w_log w' = []
    /\ w_files w' = ["plots/ECG_FEATS_SUBJ_p01_SCEN_S5_MODE_sport.png"].
Proof.
  edestruct (extract_missing_target_column stub_externals 2 "ecg" "stress" "time" "p01"
               "scenario" "mode" example_modes "plots" "ECG" true drive_no_target
               empty_world (SStr "S5") "sport")
    as (k & w' & Hres & Hlog & Hfiles).
  - reflexivity.
  - vm_compute. reflexivity.
  - reflexivity.
  - vm_compute. reflexivity.
  - reflexivity.
  - reflexivity.
  - exists k, w'. split; [exact Hres|]. split; [exact Hlog | exact Hfiles].
Defined.
